(** * cron_parser_py: a shallow embedding and its verification

    The development follows [src/cron_parser_py.py] function by function.
    Python values are modelled as follows.

    - [int] is [Z]; [%] is only ever applied with a positive right operand,
      where Python's floor modulo and [Z.modulo] agree.
    - [str] is [string]; a character is a code point below 256.
    - [list of int] is [list Z]; [x in l] is [py_in]; [l[0]] raises
      [IndexError] on the empty list.
    - an exception is a constructor of [exn]; a function that may raise
      returns [result].
    - [int(s)] converts at most 4300 digits, the default of
      [sys.int_info], and raises [ValueError] beyond.
    - a naive [datetime] is the record [datetime]: the proleptic Gregorian
      ordinal of its date (what [toordinal()] returns) and its time of day.
      [.year], [.month], [.day] are read off the ordinal with the algorithm
      of the [datetime] module; [+ timedelta] and the comparisons follow
      that module as well, including its [OverflowError] past year 9999. *)

From Stdlib Require Import ZArith List String Ascii Bool Lia.
From Stdlib Require Import Sorting.Sorted Sorting.Permutation.
From Stdlib Require Import Numbers.DecimalString Numbers.DecimalPos.
Import ListNotations.

Local Open Scope string_scope.
Local Open Scope Z_scope.

(** ** Exceptions and results *)

Inductive exn : Type :=
| ValueError (msg : string)
| TypeError (msg : string)
| IndexError
| OverflowError
| StopIteration.

Inductive result (A : Type) : Type :=
| Ok (a : A)
| Raise (e : exn).

Arguments Ok {A} a.
Arguments Raise {A} e.

Definition bind {A B : Type} (r : result A) (k : A -> result B) : result B :=
  match r with
  | Ok a => k a
  | Raise e => Raise e
  end.

Notation "x <- e ;; k" := (bind e (fun x => k))
  (at level 61, e at next level, right associativity).

(** ** Python strings *)

Module PyStr.

Definition code (c : ascii) : N := N_of_ascii c.

(** [\d] of [re] on the code points below 256: the ten ASCII digits. *)
Definition is_decimal (c : ascii) : bool :=
  ((48 <=? code c) && (code c <=? 57))%N.

(** [str.isdigit] also accepts the superscripts two, three and one
    (code points 178, 179 and 185), which [int] refuses. *)
Definition is_digit_char (c : ascii) : bool :=
  is_decimal c || (code c =? 178)%N || (code c =? 179)%N || (code c =? 185)%N.

(** The white space of [str.split()] and [str.strip()] below 256. *)
Definition is_space (c : ascii) : bool :=
  (((9 <=? code c) && (code c <=? 13)) || ((28 <=? code c) && (code c <=? 32))
   || (code c =? 133) || (code c =? 160))%N.

Definition is_upper (c : ascii) : bool :=
  ((65 <=? code c) && (code c <=? 90))%N.

Fixpoint forallb (p : ascii -> bool) (s : string) : bool :=
  match s with
  | EmptyString => true
  | String c r => p c && forallb p r
  end.

Definition nonempty (s : string) : bool :=
  match s with EmptyString => false | String _ _ => true end.

(** [c in s] for a one-character [c]. *)
Fixpoint contains (c : ascii) (s : string) : bool :=
  match s with
  | EmptyString => false
  | String d r => Ascii.eqb d c || contains c r
  end.

(** [s.split(sep)] for a one-character separator. *)
Fixpoint split (sep : ascii) (s : string) : list string :=
  match s with
  | EmptyString => [EmptyString]
  | String c r =>
      if Ascii.eqb c sep then EmptyString :: split sep r
      else match split sep r with
           | [] => [String c EmptyString]
           | w :: ws => String c w :: ws
           end
  end.

Fixpoint lstrip (s : string) : string :=
  match s with
  | EmptyString => EmptyString
  | String c r => if is_space c then lstrip r else s
  end.

Fixpoint rstrip (s : string) : string :=
  match s with
  | EmptyString => EmptyString
  | String c r =>
      match rstrip r with
      | EmptyString => if is_space c then EmptyString else String c EmptyString
      | r' => String c r'
      end
  end.

Definition strip (s : string) : string := rstrip (lstrip s).

(** [s.split()]: the maximal runs of characters that are not white space.
    [word] is the run being read, in reverse. *)
Fixpoint split_ws_aux (word : list ascii) (s : string) : list string :=
  let flush (ws : list string) :=
    match word with
    | [] => ws
    | _ => string_of_list_ascii (rev word) :: ws
    end in
  match s with
  | EmptyString => flush []
  | String c r =>
      if is_space c then flush (split_ws_aux [] r)
      else split_ws_aux (c :: word) r
  end.

Definition split_ws (s : string) : list string := split_ws_aux [] s.

(** [s.isdigit()] *)
Definition isdigit (s : string) : bool := nonempty s && forallb is_digit_char s.

(** [re.fullmatch(r'\d+', s)] *)
Definition fullmatch_number (s : string) : bool := nonempty s && forallb is_decimal s.

Fixpoint skip_decimals (s : string) : string :=
  match s with
  | EmptyString => EmptyString
  | String c r => if is_decimal c then skip_decimals r else s
  end.

(** [re.fullmatch(r'\d+-\d+', s)] *)
Definition fullmatch_range (s : string) : bool :=
  match s with
  | EmptyString => false
  | String c r =>
      is_decimal c &&
      match skip_decimals r with
      | String d r2 => Ascii.eqb d "-" && fullmatch_number r2
      | EmptyString => false
      end
  end.

Fixpoint decimal_value (acc : Z) (s : string) : Z :=
  match s with
  | EmptyString => acc
  | String c r => decimal_value (10 * acc + (Z.of_N (code c) - 48)) r
  end.

(** [str(n)].  The program applies it to the numbers of the name tables
    and to values that [int] has returned, which have at most
    [MAX_STR_DIGITS] digits, where [str] does not raise. *)
Definition str (n : Z) : string := NilZero.string_of_int (Z.to_int n).

(** [sys.int_info.default_max_str_digits]: the most digits that [int]
    converts. *)
Definition MAX_STR_DIGITS : Z := 4300.

(** The number of characters of [s]. *)
Definition len (s : string) : Z := Z.of_nat (String.length s).

(** [int(s)], on the strings the program applies it to: those accepted by
    [\d+] or by [isdigit].  A string of decimal digits has its value, unless
    it has more than [MAX_STR_DIGITS] digits: then [int] raises, as it does
    on the superscript digits. *)
Definition int (s : string) : result Z :=
  if fullmatch_number s then
    if MAX_STR_DIGITS <? len s then
      Raise (ValueError
               ("Exceeds the limit (" ++ str MAX_STR_DIGITS
                ++ " digits) for integer string conversion: value has "
                ++ str (len s)
                ++ " digits; use sys.set_int_max_str_digits() to increase the limit"))
    else Ok (decimal_value 0 s)
  else Raise (ValueError ("invalid literal for int() with base 10: '" ++ s ++ "'")).

(** [s.startswith(p)] *)
Fixpoint startswith (s p : string) {struct p} : bool :=
  match p with
  | EmptyString => true
  | String a p' =>
      match s with
      | EmptyString => false
      | String b s' => Ascii.eqb a b && startswith s' p'
      end
  end.

(** [sub in s] for strings. *)
Fixpoint mentions (sub s : string) : bool :=
  startswith s sub ||
  match s with
  | EmptyString => false
  | String _ r => mentions sub r
  end.

End PyStr.

(** ** Python lists of integers *)

Module PyList.

(** [range(lo, hi)] *)
Definition range (lo hi : Z) : list Z :=
  map (fun i => lo + Z.of_nat i) (seq 0 (Z.to_nat (hi - lo))).

(** [x in l] *)
Definition py_in (x : Z) (l : list Z) : bool := existsb (Z.eqb x) l.

Fixpoint insert (x : Z) (l : list Z) : list Z :=
  match l with
  | [] => [x]
  | y :: r => if x <=? y then x :: l else y :: insert x r
  end.

(** [sorted(l)] *)
Definition sorted (l : list Z) : list Z := fold_right insert [] l.

(** [set(l)], as the list of its elements in some order; the program only
    ever sorts it. *)
Definition set (l : list Z) : list Z := nodup Z.eq_dec l.

(** [l[0]] *)
Definition head (l : list Z) : result Z :=
  match l with
  | [] => Raise IndexError
  | x :: _ => Ok x
  end.

End PyList.

(** ** Symbolic names *)

Definition MONTH_MAP : list (string * Z) :=
  [ ("JAN", 1); ("FEB", 2); ("MAR", 3); ("APR", 4);
    ("MAY", 5); ("JUN", 6); ("JUL", 7); ("AUG", 8);
    ("SEP", 9); ("OCT", 10); ("NOV", 11); ("DEC", 12) ].

Definition DOW_MAP : list (string * Z) :=
  [ ("SUN", 0); ("MON", 1); ("TUE", 2); ("WED", 3);
    ("THU", 4); ("FRI", 5); ("SAT", 6) ].

(** The first alternative of ['|'.join(table.keys())] that matches at the
    head of [s]. *)
Fixpoint match_key (table : list (string * Z)) (s : string) : option (string * Z) :=
  match table with
  | [] => None
  | (k, v) :: rest =>
      if PyStr.startswith s k then Some (k, v) else match_key rest s
  end.

(** [re.sub('|'.join(table.keys()), repl, field)] with
    [repl = str(table[match.group(0)])]: the text is scanned from the left;
    where a key matches, its number is written and the scan resumes after
    the key ([skip] counts the characters of the key still to pass over);
    elsewhere the character is copied. *)
Fixpoint sub_keys (table : list (string * Z)) (skip : nat) (s : string) : string :=
  match s with
  | EmptyString => EmptyString
  | String c r =>
      match skip with
      | S k => sub_keys table k r
      | O =>
          match match_key table s with
          | Some (key, v) => PyStr.str v ++ sub_keys table (String.length key - 1) r
          | None => String c (sub_keys table 0 r)
          end
      end
  end.

Definition replace_month_string (field : string) : string :=
  sub_keys MONTH_MAP 0 field.

Definition replace_dow_string (field : string) : string :=
  sub_keys DOW_MAP 0 field.

(** ** Field parser *)

Definition parse_range (range_str : string) (min_ max_ : Z) (field_name : string)
  : result (list Z) :=
  if String.eqb range_str "*" then Ok (PyList.range min_ (max_ + 1))
  else if PyStr.fullmatch_number range_str then
    value <- PyStr.int range_str ;;
    if (value <? min_) || (value >? max_) then
      Raise (ValueError (field_name ++ " field contains out of range value '"
                         ++ PyStr.str value ++ "'"))
    else Ok [value]
  else if PyStr.fullmatch_range range_str then
    match PyStr.split "-" range_str with
    | [s; e] =>
        start <- PyStr.int s ;;
        end_ <- PyStr.int e ;;
        if (start >? end_) || (start <? min_) || (end_ >? max_) then
          Raise (ValueError (field_name ++ " field contains invalid range '"
                             ++ range_str ++ "'"))
        else Ok (PyList.range start (end_ + 1))
    | _ => Raise (ValueError "too many values to unpack (expected 2)")
    end
  else Raise (ValueError (field_name ++ " field contains invalid range '"
                          ++ range_str ++ "'")).

Definition parse_part (part : string) (min_ max_ : Z) (field_name : string)
  : result (list Z) :=
  if PyStr.contains "/" part then
    match PyStr.split "/" part with
    | [range_str; step_str] =>
        range_vals <- parse_range range_str min_ max_ field_name ;;
        if negb (PyStr.isdigit step_str) then
          Raise (ValueError (field_name ++ " field contains invalid step value '"
                             ++ step_str ++ "'"))
        else
          step <- PyStr.int step_str ;;
          if step <=? 0 then
            Raise (ValueError (field_name ++ " field contains invalid step value '"
                               ++ step_str ++ "'"))
          else Ok (filter (fun v => (v - min_) mod step =? 0) range_vals)
    | _ => Raise (ValueError "too many values to unpack (expected 2)")
    end
  else parse_range part min_ max_ field_name.

(** The loop [for part in field.split(','): result.extend(parse_part(...))]. *)
Fixpoint extend_parts (parts : list string) (acc : list Z) (min_ max_ : Z)
  (field_name : string) : result (list Z) :=
  match parts with
  | [] => Ok acc
  | part :: rest =>
      vals <- parse_part part min_ max_ field_name ;;
      extend_parts rest (acc ++ vals) min_ max_ field_name
  end.

(** The argument is a [string], so the [isinstance] test passes. *)
Definition parse_field (field : string) (min_ max_ : Z) (field_name : string)
  : result (list Z) :=
  res <- extend_parts (PyStr.split "," field) [] min_ max_ field_name ;;
  Ok (PyList.sorted (PyList.set res)).

(** ** Next-or-wrap search *)

Fixpoint first_ge (current : Z) (l : list Z) : option Z :=
  match l with
  | [] => None
  | candidate :: rest =>
      if candidate >=? current then Some candidate else first_ge current rest
  end.

Definition to_next_value (current : Z) (candidates : list Z) (min_ max_ : Z)
  : result Z :=
  match first_ge current (PyList.sorted candidates) with
  | Some candidate => Ok (candidate - current)
  | None =>
      c0 <- PyList.head candidates ;;
      Ok (c0 + max_ + min_ + 1 - current)
  end.

(** ** The [datetime] module *)

Module PyDate.

Definition MAXORDINAL : Z := 3652059.

Definition DAYS_IN_MONTH : list Z :=
  [-1; 31; 28; 31; 30; 31; 30; 31; 31; 30; 31; 30; 31].

Definition DAYS_BEFORE_MONTH : list Z :=
  [-1; 0; 31; 59; 90; 120; 151; 181; 212; 243; 273; 304; 334].

Definition index (l : list Z) (i : Z) : Z := nth (Z.to_nat i) l (-1).

Definition b2z (b : bool) : Z := if b then 1 else 0.

Definition is_leap (year : Z) : bool :=
  (year mod 4 =? 0) && (negb (year mod 100 =? 0) || (year mod 400 =? 0)).

Definition days_before_year (year : Z) : Z :=
  let y := year - 1 in
  y * 365 + y / 4 - y / 100 + y / 400.

Definition days_in_month (year month : Z) : Z :=
  if (month =? 2) && is_leap year then 29 else index DAYS_IN_MONTH month.

Definition days_before_month (year month : Z) : Z :=
  index DAYS_BEFORE_MONTH month + b2z ((month >? 2) && is_leap year).

Definition ymd2ord (year month day : Z) : Z :=
  days_before_year year + days_before_month year month + day.

Definition DI400Y : Z := 146097.
Definition DI100Y : Z := 36524.
Definition DI4Y : Z := 1461.

(** [_ord2ymd]: year, month and day of the date with ordinal [n]. *)
Definition ord2ymd (n : Z) : Z * Z * Z :=
  let n := n - 1 in
  let n400 := n / DI400Y in
  let n := n mod DI400Y in
  let year := n400 * 400 + 1 in
  let n100 := n / DI100Y in
  let n := n mod DI100Y in
  let n4 := n / DI4Y in
  let n := n mod DI4Y in
  let n1 := n / 365 in
  let n := n mod 365 in
  let year := year + n100 * 100 + n4 * 4 + n1 in
  if (n1 =? 4) || (n100 =? 4) then (year - 1, 12, 31)
  else
    let leapyear := (n1 =? 3) && (negb (n4 =? 24) || (n100 =? 3)) in
    let month := Z.shiftr (n + 50) 5 in
    let preceding := index DAYS_BEFORE_MONTH month + b2z ((month >? 2) && leapyear) in
    let '(month, preceding) :=
      if preceding >? n then
        (month - 1,
         preceding - (index DAYS_IN_MONTH (month - 1)
                      + b2z ((month - 1 =? 2) && leapyear)))
      else (month, preceding) in
    (year, month, n - preceding + 1).

Record datetime : Type := mkdt {
  ordinal : Z;
  hour : Z;
  minute : Z;
  second : Z;
  microsecond : Z
}.

Definition year (dt : datetime) : Z := fst (fst (ord2ymd (ordinal dt))).
Definition month (dt : datetime) : Z := snd (fst (ord2ymd (ordinal dt))).
Definition day (dt : datetime) : Z := snd (ord2ymd (ordinal dt)).

Definition between (lo x hi : Z) : bool := (lo <=? x) && (x <=? hi).

(** [datetime(year, month, day, hour, minute, second, microsecond)] *)
Definition make (y mo d h mi s us : Z) : result datetime :=
  if negb (between 1 y 9999) then Raise (ValueError "year must be in 1..9999")
  else if negb (between 1 mo 12) then Raise (ValueError "month must be in 1..12")
  else if negb (between 1 d (days_in_month y mo)) then
    Raise (ValueError "day is out of range for month")
  else if negb (between 0 h 23) then Raise (ValueError "hour must be in 0..23")
  else if negb (between 0 mi 59) then Raise (ValueError "minute must be in 0..59")
  else if negb (between 0 s 59) then Raise (ValueError "second must be in 0..59")
  else if negb (between 0 us 999999) then
    Raise (ValueError "microsecond must be in 0..999999")
  else Ok (mkdt (ymd2ord y mo d) h mi s us).

(** The objects that [make] and the operations below produce. *)
Definition wf (dt : datetime) : Prop :=
  1 <= ordinal dt <= MAXORDINAL /\ 0 <= hour dt <= 23 /\ 0 <= minute dt <= 59
  /\ 0 <= second dt <= 59 /\ 0 <= microsecond dt <= 999999.

(** [dt.weekday()]: Monday is 0 and Sunday is 6. *)
Definition weekday (dt : datetime) : Z := (ordinal dt + 6) mod 7.

(** A [timedelta], as its length in minutes: the program builds no other. *)
Definition timedelta : Type := Z.
Definition td_minutes (k : Z) : timedelta := k.
Definition td_hours (k : Z) : timedelta := 60 * k.
Definition td_days (k : Z) : timedelta := 1440 * k.

(** [dt + td]: the date and time are turned into one count, the delta is
    added, and the count is split again; a date outside years 1..9999
    raises. *)
Definition add (dt : datetime) (td : timedelta) : result datetime :=
  let total := (ordinal dt * 24 + hour dt) * 60 + minute dt + td in
  let days := total / 1440 in
  let rem := total mod 1440 in
  if (0 <? days) && (days <=? MAXORDINAL) then
    Ok (mkdt days (rem / 60) (rem mod 60) (second dt) (microsecond dt))
  else Raise OverflowError.

(** [dt.replace(minute=m)]: the argument is converted to a C [int] first,
    which raises [OverflowError] outside 32 bits. *)
Definition replace_minute (dt : datetime) (m : Z) : result datetime :=
  if between 0 m 59 then
    Ok (mkdt (ordinal dt) (hour dt) m (second dt) (microsecond dt))
  else if between (- 2 ^ 31) m (2 ^ 31 - 1) then
    Raise (ValueError "minute must be in 0..59")
  else Raise OverflowError.

(** [dt.replace(hour=0, minute=0)] *)
Definition replace_midnight (dt : datetime) : datetime :=
  mkdt (ordinal dt) 0 0 (second dt) (microsecond dt).

(** [dt.replace(second=0, microsecond=0)] *)
Definition replace_second0 (dt : datetime) : datetime :=
  mkdt (ordinal dt) (hour dt) (minute dt) 0 0.

(** The tuple the comparisons of [datetime] go by, as one number. *)
Definition key (dt : datetime) : Z :=
  ((((ordinal dt * 24 + hour dt) * 60 + minute dt) * 60 + second dt) * 1000000
   + microsecond dt).

(** The date and time of [dt] in minutes. *)
Definition minutes_of (dt : datetime) : Z :=
  (ordinal dt * 24 + hour dt) * 60 + minute dt.

Definition fields (dt : datetime) : list Z :=
  [ordinal dt; hour dt; minute dt; second dt; microsecond dt].

(** The comparison of two tuples, from the left. *)
Fixpoint cmp_list (a b : list Z) : comparison :=
  match a, b with
  | x :: a', y :: b' =>
      match x ?= y with
      | Eq => cmp_list a' b'
      | c => c
      end
  | [], [] => Eq
  | [], _ :: _ => Lt
  | _ :: _, [] => Gt
  end.

Definition cmp (a b : datetime) : comparison := cmp_list (fields a) (fields b).

(** [a < b] *)
Definition ltb (a b : datetime) : bool :=
  match cmp a b with Lt => true | _ => false end.

(** [a <= b] *)
Definition leb (a b : datetime) : bool :=
  match cmp a b with Gt => false | _ => true end.

End PyDate.

Import PyDate.

(** ** Time-of-day advancer *)

Definition shift_time (dt : datetime) (minutes hours : list Z) : result datetime :=
  add_minute <- to_next_value (minute dt) minutes 0 59 ;;
  dt <- add dt (td_minutes add_minute) ;;
  dt <- (if negb (PyList.py_in (minute dt) minutes) then
           m0 <- PyList.head minutes ;; replace_minute dt m0
         else Ok dt) ;;
  add_hour <- to_next_value (hour dt) hours 0 23 ;;
  if add_hour >? 0 then
    dt <- add dt (td_hours add_hour) ;;
    m0 <- PyList.head minutes ;;
    replace_minute dt m0
  else Ok dt.

(** ** Date advancer *)

Definition date_matches (dt : datetime) (dom month_ dow : list Z) : bool :=
  PyList.py_in (day dt) dom && PyList.py_in (month dt) month_
  && PyList.py_in (weekday dt) dow.

(** The loop of [shift_date].  Each round that does not stop moves to the
    next day, and [add] raises when the calendar ends, so the loop runs at
    most [MAXORDINAL - ordinal dt] rounds; [fuel] counts them. *)
Fixpoint shift_date_loop (fuel : nat) (dt : datetime) (dom month_ dow : list Z)
  : result datetime :=
  if date_matches dt dom month_ dow then Ok dt
  else
    dt' <- add dt (td_days 1) ;;
    match fuel with
    | O => Raise OverflowError
    | S fuel' => shift_date_loop fuel' (replace_midnight dt') dom month_ dow
    end.

Definition shift_date (dt : datetime) (dom month_ dow : list Z) : result datetime :=
  shift_date_loop (Z.to_nat (MAXORDINAL - ordinal dt)) dt dom month_ dow.

(** ** Schedule iterator *)

Record CronScheduleIterator : Type := mkiter {
  it_minute : list Z;
  it_hour : list Z;
  it_dom : list Z;
  it_month : list Z;
  it_dow : list Z;
  current : datetime
}.

(** [CronScheduleIterator.__init__]; [now] is what [datetime.now()] returns. *)
Definition init (minute_ hour_ dom month_ dow : list Z)
  (start_date : option datetime) (now : datetime) : result CronScheduleIterator :=
  let start := match start_date with Some d => d | None => now end in
  cur <- add (replace_second0 start) (td_minutes 1) ;;
  Ok (mkiter minute_ hour_ dom month_
        (map (fun d => if d =? 7 then 0 else d) dow) cur).

(** [CronScheduleIterator.__next__]: the value returned and the iterator
    after the call.  When the call raises, [self.current] is as before. *)
Definition next (self : CronScheduleIterator)
  : result (datetime * CronScheduleIterator) :=
  let dt := current self in
  dt <- shift_time dt (it_minute self) (it_hour self) ;;
  dt <- shift_date dt (it_dom self) (it_month self) (it_dow self) ;;
  if ltb dt (current self) then Raise StopIteration
  else
    cur <- add dt (td_minutes 1) ;;
    Ok (dt, mkiter (it_minute self) (it_hour self) (it_dom self) (it_month self)
              (it_dow self) cur).

(** [n] calls of [next] in a row. *)
Fixpoint take (n : nat) (self : CronScheduleIterator) : result (list datetime) :=
  match n with
  | O => Ok []
  | S n' =>
      r <- next self ;;
      rest <- take n' (snd r) ;;
      Ok (fst r :: rest)
  end.

(** The argument is a [string], so the [isinstance] test passes. *)
Definition parse_cron_expression (expr : string) (start_date : option datetime)
  (now : datetime) : result CronScheduleIterator :=
  match PyStr.split_ws (PyStr.strip expr) with
  | [f0; f1; f2; f3; f4] =>
      minute_ <- parse_field f0 0 59 "minute" ;;
      hour_ <- parse_field f1 0 23 "hour" ;;
      dom <- parse_field f2 1 31 "day of month" ;;
      month_ <- parse_field (replace_month_string f3) 1 12 "month" ;;
      dow <- parse_field (replace_dow_string f4) 0 7 "day of week" ;;
      let dow :=
        if PyList.py_in 7 dow then map (fun d => if negb (d =? 7) then d else 0) dow
        else dow in
      init minute_ hour_ dom month_ dow start_date now
  | _ => Raise (ValueError "Cron expression must have five fields")
  end.

(** ** Display *)

Section Display.

(** [%Y] of [strftime]: the year in decimal digits.  Below year 1000 the C
    library decides whether zeros are put in front, so the text of a year
    is a parameter. *)
Variable year_text : Z -> string.

(** [%m], [%d], [%H] and [%M]: two digits, with a zero in front below 10. *)
Definition pad2 (n : Z) : string :=
  if n <? 10 then "0" ++ PyStr.str n else PyStr.str n.

(** [dt.strftime('%Y/%m/%d %H:%M(%z)')] on a naive [dt], where [%z] is the
    empty text. *)
Definition format_local (dt : datetime) : string :=
  year_text (year dt) ++ "/" ++ pad2 (month dt) ++ "/" ++ pad2 (day dt)
  ++ " " ++ pad2 (hour dt) ++ ":" ++ pad2 (minute dt) ++ "(" ++ "" ++ ")".

(** [dt.strftime('%Y/%m/%d %H:%M(UTC)')] *)
Definition format_utc (dt : datetime) : string :=
  year_text (year dt) ++ "/" ++ pad2 (month dt) ++ "/" ++ pad2 (day dt)
  ++ " " ++ pad2 (hour dt) ++ ":" ++ pad2 (minute dt) ++ "(UTC)".

End Display.

(** * Vocabulary of the specification *)

(** Every value of [l] lies in the field domain [[lo, hi]]. *)
Definition within (lo hi : Z) (l : list Z) : Prop :=
  Forall (fun v => lo <= v <= hi) l.

(** A Parsed Field as the iterator needs it: not empty, inside its domain. *)
Definition parsed_ok (lo hi : Z) (l : list Z) : Prop :=
  l <> [] /\ within lo hi l.

(** The roll-over delta on a ring of width [hi - lo + 1]. *)
Definition ring_delta (c0 lo hi current : Z) : Z :=
  c0 + (hi - lo + 1) - current.

(** The shapes of an atom: [*], [N], [N-M], or one of these with [/S]. *)
Definition base_shape (s : string) : bool :=
  String.eqb s "*" || PyStr.fullmatch_number s || PyStr.fullmatch_range s.

Definition atom_shape (s : string) : bool :=
  base_shape s ||
  match PyStr.split "/" s with
  | [b; st] => base_shape b && PyStr.fullmatch_number st
  | _ => false
  end.

(** A field text with symbolic names, as a sequence of tokens: a name of
    the table, or any character that is not an upper-case letter. *)
Inductive token : Type :=
| Name (key : string) (num : Z)
| Lit (c : ascii).

Definition token_ok (table : list (string * Z)) (t : token) : Prop :=
  match t with
  | Name k v => In (k, v) table
  | Lit c => PyStr.is_upper c = false
  end.

(** The text as written with names, and the equivalent numeric text. *)
Fixpoint symbolic (ts : list token) : string :=
  match ts with
  | [] => EmptyString
  | Name k _ :: r => k ++ symbolic r
  | Lit c :: r => String c (symbolic r)
  end.

Fixpoint numeric (ts : list token) : string :=
  match ts with
  | [] => EmptyString
  | Name _ v :: r => PyStr.str v ++ numeric r
  | Lit c :: r => String c (numeric r)
  end.

(** The weekday of [dt] in the encoding of [DOW_MAP]: Sunday is 0, Monday 1,
    ..., Saturday 6. *)
Definition cron_weekday (dt : datetime) : Z := (weekday dt + 1) mod 7.

(** Year, month, day, hour and minute of [dt]. *)
Definition ymdhm (dt : datetime) : Z * Z * Z * Z * Z :=
  (year dt, month dt, day dt, hour dt, minute dt).

(** The iterator for [expr] started at the given minute. *)
Definition schedule (expr : string) (y mo d h mi : Z) : result CronScheduleIterator :=
  start <- make y mo d h mi 0 0 ;;
  parse_cron_expression expr (Some start) start.

(** The month and day of the day [n] of a year, counted from 0: the second
    half of [ord2ymd]. *)
Definition month_and_day (n : Z) (leapyear : bool) : Z * Z :=
  let month := Z.shiftr (n + 50) 5 in
  let preceding := index DAYS_BEFORE_MONTH month + b2z ((month >? 2) && leapyear) in
  let '(month, preceding) :=
    if preceding >? n then
      (month - 1,
       preceding - (index DAYS_IN_MONTH (month - 1) + b2z ((month - 1 =? 2) && leapyear)))
    else (month, preceding) in
  (month, n - preceding + 1).

(** [month_and_day] inverts the table of days before a month. *)
Definition month_and_day_ok (leapyear : bool) (n : Z) : bool :=
  let '(m, d) := month_and_day n leapyear in
  between 1 m 12
  && between 1 d (index DAYS_IN_MONTH m + b2z ((m =? 2) && leapyear))
  && (index DAYS_BEFORE_MONTH m + b2z ((m >? 2) && leapyear) + d =? n + 1).

(** A month and a day of that month. *)
Definition valid_date (y m d : Z) : Prop :=
  1 <= m <= 12 /\ 1 <= d <= days_in_month y m.

(** The start of an iterator: [start_date or datetime.now()]. *)
Definition start_or_now (start_date : option datetime) (now : datetime) : datetime :=
  match start_date with Some d => d | None => now end.

(** 2023-01-01 at the given hour and minute. *)
Definition new_year_2023 (h mi : Z) : datetime := mkdt (ymd2ord 2023 1 1) h mi 0 0.

(** The day with ordinal [n] passes the test of [shift_date]. *)
Definition day_matches (n : Z) (dom month_ dow : list Z) : bool :=
  date_matches (mkdt n 0 0 0 0) dom month_ dow.

(** A time with no seconds and no microseconds. *)
Definition on_the_minute (dt : datetime) : Prop :=
  second dt = 0 /\ microsecond dt = 0.

(** The most days that month [mo] has in any year. *)
Definition longest (mo : Z) : Z := index DAYS_IN_MONTH mo + b2z (mo =? 2).

(** A time of day in the minute and hour sets, on a day that passes the
    test of [shift_date]: an occurrence of the schedule as the code reads
    it. *)
Definition occurrence (it : CronScheduleIterator) (t : datetime) : Prop :=
  In (minute t) (it_minute it) /\ In (hour t) (it_hour it)
  /\ date_matches t (it_dom it) (it_month it) (it_dow it) = true.

(** [pad2] gives two characters that read back as the number. *)
Definition pad2_ok (n : Z) : bool :=
  (String.length (pad2 n) =? 2)%nat && (PyStr.decimal_value 0 (pad2 n) =? n).

(** * Verification *)

(** ** Results *)

Lemma bind_ok {A B : Type} (r : result A) (k : A -> result B) (b : B) :
  bind r k = Ok b -> exists a, r = Ok a /\ k a = Ok b.
Proof.
  destruct r as [a|e]; simpl; intros H; [exists a; auto | discriminate].
Qed.

Ltac bind_inv H :=
  let a := fresh "v" in
  let Ha := fresh "Hv" in
  apply bind_ok in H; destruct H as (a & Ha & H).

(** ** Lists *)

Module PyListFacts.
Import PyList.

Lemma py_in_iff (x : Z) (l : list Z) : py_in x l = true <-> In x l.
Proof.
  unfold py_in. rewrite existsb_exists. split.
  - intros (y & Hy & E). apply Z.eqb_eq in E. now subst.
  - intros H. exists x. split; [assumption | apply Z.eqb_refl].
Qed.

Lemma in_range (lo hi v : Z) : In v (range lo hi) <-> lo <= v < hi.
Proof.
  unfold range. rewrite in_map_iff. split.
  - intros (i & <- & Hi). apply in_seq in Hi. lia.
  - intros H. exists (Z.to_nat (v - lo)). split; [lia | apply in_seq; lia].
Qed.

Lemma in_insert (x y : Z) (l : list Z) : In y (insert x l) <-> y = x \/ In y l.
Proof.
  induction l as [|z l IH]; simpl.
  - intuition.
  - destruct (x <=? z); simpl; rewrite ?IH; intuition.
Qed.

Lemma in_sorted (y : Z) (l : list Z) : In y (sorted l) <-> In y l.
Proof.
  induction l as [|x l IH]; simpl; [tauto|].
  rewrite in_insert, IH. intuition.
Qed.

Lemma in_set (y : Z) (l : list Z) : In y (set l) <-> In y l.
Proof. unfold set. apply nodup_In. Qed.

Lemma insert_strict (x : Z) (l : list Z) :
  StronglySorted Z.lt l -> ~ In x l -> StronglySorted Z.lt (insert x l).
Proof.
  induction 1 as [|z l Hs IH Hz]; intros Hx; simpl.
  - repeat constructor.
  - destruct (Z.leb_spec x z) as [Hle|Hgt].
    + assert (x < z) by (simpl in Hx; lia).
      constructor; [now constructor|].
      constructor; [assumption|].
      eapply Forall_impl; [|exact Hz]. simpl. intros; lia.
    + constructor.
      * apply IH. simpl in Hx. tauto.
      * apply Forall_forall. intros y Hy. apply in_insert in Hy.
        destruct Hy as [->|Hy]; [lia|].
        rewrite Forall_forall in Hz. now apply Hz.
Qed.

Lemma sorted_strict (l : list Z) : NoDup l -> StronglySorted Z.lt (sorted l).
Proof.
  induction 1 as [|x l Hx Hnd IH]; simpl; [constructor|].
  apply insert_strict; [assumption|]. now rewrite in_sorted.
Qed.

Lemma strict_nodup (l : list Z) : StronglySorted Z.lt l -> NoDup l.
Proof.
  induction 1 as [|x l Hs IH Hx]; constructor; [|assumption].
  intros Hin. rewrite Forall_forall in Hx. specialize (Hx _ Hin). lia.
Qed.

(** [sorted(set(l))] is strictly ascending and has the elements of [l]. *)
Lemma sorted_set_spec (l : list Z) :
  StronglySorted Z.lt (sorted (set l))
  /\ forall v, In v (sorted (set l)) <-> In v l.
Proof.
  split.
  - apply sorted_strict. apply NoDup_nodup.
  - intros v. now rewrite in_sorted, in_set.
Qed.

End PyListFacts.

(** ** Field parser *)

Section FieldParser.
Variables (min_ max_ : Z) (field_name : string).

Lemma parse_range_within (s : string) (vals : list Z) :
  parse_range s min_ max_ field_name = Ok vals -> within min_ max_ vals.
Proof.
  unfold parse_range, within. intros H.
  destruct (String.eqb s "*").
  { injection H as <-. apply Forall_forall. intros v Hv.
    apply PyListFacts.in_range in Hv. lia. }
  destruct (PyStr.fullmatch_number s).
  { bind_inv H.
    destruct ((v <? min_) || (v >? max_)) eqn:E; [discriminate|].
    injection H as <-. apply orb_false_elim in E. constructor; [lia|constructor]. }
  destruct (PyStr.fullmatch_range s); [|discriminate].
  destruct (PyStr.split "-" s) as [|a [|b [|c l]]]; try discriminate.
  bind_inv H. bind_inv H.
  destruct ((v >? v0) || (v <? min_) || (v0 >? max_)) eqn:E; [discriminate|].
  injection H as <-. apply orb_false_elim in E. destruct E as [E E3].
  apply orb_false_elim in E. apply Forall_forall. intros x Hx.
  apply PyListFacts.in_range in Hx. lia.
Qed.

Lemma parse_range_nonempty (s : string) (vals : list Z) :
  min_ <= max_ ->
  parse_range s min_ max_ field_name = Ok vals -> exists v, In v vals.
Proof.
  unfold parse_range. intros Hmm H.
  destruct (String.eqb s "*").
  { injection H as <-. exists min_. apply PyListFacts.in_range. lia. }
  destruct (PyStr.fullmatch_number s).
  { bind_inv H.
    destruct ((v <? min_) || (v >? max_)); [discriminate|].
    injection H as <-. exists v. now left. }
  destruct (PyStr.fullmatch_range s); [|discriminate].
  destruct (PyStr.split "-" s) as [|a [|b [|c l]]]; try discriminate.
  bind_inv H. bind_inv H.
  destruct ((v >? v0) || (v <? min_) || (v0 >? max_)) eqn:E; [discriminate|].
  injection H as <-. apply orb_false_elim in E. destruct E as [E E3].
  apply orb_false_elim in E. exists v. apply PyListFacts.in_range. lia.
Qed.

(** What a successful [parse_part] has done. *)
Lemma parse_part_ok (part : string) (vals : list Z) :
  parse_part part min_ max_ field_name = Ok vals ->
  (PyStr.contains "/" part = false
   /\ parse_range part min_ max_ field_name = Ok vals)
  \/ (exists range_str step_str range_vals step,
        PyStr.split "/" part = [range_str; step_str]
        /\ parse_range range_str min_ max_ field_name = Ok range_vals
        /\ PyStr.int step_str = Ok step /\ 0 < step
        /\ vals = filter (fun v => (v - min_) mod step =? 0) range_vals).
Proof.
  unfold parse_part. intros H.
  destruct (PyStr.contains "/" part); [right | now left].
  destruct (PyStr.split "/" part) as [|a [|b [|c l]]]; try discriminate.
  bind_inv H.
  destruct (negb (PyStr.isdigit b)); [discriminate|].
  bind_inv H.
  destruct (Z.leb_spec v0 0); [discriminate|].
  injection H as <-. exists a, b, v, v0. auto.
Qed.

Lemma parse_part_within (part : string) (vals : list Z) :
  parse_part part min_ max_ field_name = Ok vals -> within min_ max_ vals.
Proof.
  intros H. apply parse_part_ok in H.
  destruct H as [[_ H]|(a & b & rv & st & _ & H & _ & _ & ->)].
  - eapply parse_range_within; eauto.
  - apply parse_range_within in H. unfold within in *.
    rewrite Forall_forall in *. intros x Hx. apply filter_In in Hx. now apply H.
Qed.

(** What a successful run of the loop over the atoms has done. *)
Lemma extend_parts_ok (parts : list string) :
  forall acc res,
    extend_parts parts acc min_ max_ field_name = Ok res ->
    (forall v, In v res ->
       In v acc \/ exists part vals, In part parts
         /\ parse_part part min_ max_ field_name = Ok vals /\ In v vals)
    /\ (forall part, In part parts ->
          exists vals, parse_part part min_ max_ field_name = Ok vals
                       /\ incl vals res)
    /\ incl acc res.
Proof.
  induction parts as [|p parts IH]; simpl; intros acc res H.
  - injection H as <-. repeat split.
    + now left.
    + intros ? [].
    + apply incl_refl.
  - bind_inv H. apply IH in H. destruct H as (H1 & H2 & H3).
    repeat split.
    + intros x Hx. apply H1 in Hx. destruct Hx as [Hx|(q & vs & Hq & Hp & Hx)].
      * apply in_app_or in Hx. destruct Hx as [Hx|Hx]; [now left|].
        right. exists p, v. auto.
      * right. exists q, vs. auto.
    + intros q [<-|Hq].
      * exists v. split; [assumption|].
        intros x Hx. apply H3. apply in_or_app. now right.
      * now apply H2.
    + intros x Hx. apply H3. apply in_or_app. now left.
Qed.

End FieldParser.

(** ** Strings *)

Module PyStrFacts.
Import PyStr.

Lemma split_no_sep (c : ascii) (s : string) :
  contains c s = false -> split c s = [s].
Proof.
  induction s as [|d s IH]; simpl; [reflexivity|].
  intros H. apply orb_false_elim in H. destruct H as [Hd Hs].
  rewrite Hd, (IH Hs). reflexivity.
Qed.

Lemma split_app (c : ascii) (a b : string) :
  contains c a = false -> split c (a ++ String c b) = a :: split c b.
Proof.
  induction a as [|d a IH]; simpl.
  - intros _. now rewrite Ascii.eqb_refl.
  - intros H. apply orb_false_elim in H. destruct H as [Hd Ha].
    rewrite Hd, (IH Ha). reflexivity.
Qed.

Lemma contains_app (c : ascii) (a b : string) :
  contains c (a ++ String c b) = true.
Proof.
  induction a as [|d a IH]; simpl.
  - now rewrite Ascii.eqb_refl.
  - rewrite IH. apply orb_true_r.
Qed.

Lemma decimal_not_slash (c : ascii) : is_decimal c = true -> Ascii.eqb c "/" = false.
Proof.
  intros H. destruct (Ascii.eqb_spec c "/") as [->|]; [discriminate H | reflexivity].
Qed.

Lemma decimals_no_slash (s : string) :
  forallb is_decimal s = true -> contains "/" s = false.
Proof.
  induction s as [|c s IH]; simpl; [reflexivity|].
  intros H. apply andb_prop in H. destruct H as [Hc Hs].
  now rewrite (decimal_not_slash _ Hc), (IH Hs).
Qed.

Lemma decimals_digits (s : string) :
  forallb is_decimal s = true -> forallb is_digit_char s = true.
Proof.
  induction s as [|c s IH]; simpl; [reflexivity|].
  intros H. apply andb_prop in H. destruct H as [Hc Hs].
  rewrite (IH Hs). unfold is_digit_char. now rewrite Hc.
Qed.

Lemma int_ok (s : string) (n : Z) :
  int s = Ok n -> fullmatch_number s = true /\ n = decimal_value 0 s.
Proof.
  unfold int. destruct (fullmatch_number s); [|discriminate].
  destruct (MAX_STR_DIGITS <? len s); [discriminate|].
  intros H. injection H as <-. auto.
Qed.

Lemma number_isdigit (s : string) : fullmatch_number s = true -> isdigit s = true.
Proof.
  unfold fullmatch_number, isdigit. intros H. apply andb_prop in H.
  destruct H as [-> H]. simpl. now apply decimals_digits.
Qed.

Lemma number_no_slash (s : string) :
  fullmatch_number s = true -> contains "/" s = false.
Proof.
  unfold fullmatch_number. intros H. apply andb_prop in H.
  now apply decimals_no_slash.
Qed.

Lemma decimal_not_dash (c : ascii) : is_decimal c = true -> Ascii.eqb c "-" = false.
Proof.
  intros H. destruct (Ascii.eqb_spec c "-") as [->|]; [discriminate H | reflexivity].
Qed.

Lemma decimals_no_dash (s : string) :
  forallb is_decimal s = true -> contains "-" s = false.
Proof.
  induction s as [|c s IH]; simpl; [reflexivity|].
  intros H. apply andb_prop in H. destruct H as [Hc Hs].
  now rewrite (decimal_not_dash _ Hc), (IH Hs).
Qed.

Lemma skip_decimals_dash (r r2 : string) :
  skip_decimals r = String "-" r2 ->
  exists a, r = a ++ String "-" r2 /\ forallb is_decimal a = true.
Proof.
  induction r as [|d r IH]; simpl; [discriminate|].
  destruct (is_decimal d) eqn:Ed.
  - intros H. destruct (IH H) as (a & -> & Ha).
    exists (String d a). simpl. now rewrite Ed, Ha.
  - intros H. injection H as -> ->. exists EmptyString. auto.
Qed.

(** A text that [\d+-\d+] accepts splits at its dash into two numbers. *)
Lemma fullmatch_range_split (s : string) :
  fullmatch_range s = true ->
  exists a b, split "-" s = [a; b]
              /\ fullmatch_number a = true /\ fullmatch_number b = true.
Proof.
  intros H. destruct s as [|c r]; simpl in H; [discriminate|].
  apply andb_prop in H. destruct H as [Hc H].
  destruct (skip_decimals r) as [|d r2] eqn:E; [discriminate|].
  apply andb_prop in H. destruct H as [Hd Hr2].
  apply Ascii.eqb_eq in Hd. subst d.
  destruct (skip_decimals_dash _ _ E) as (a & -> & Ha).
  exists (String c a), r2.
  assert (Hn : fullmatch_number (String c a) = true).
  { unfold fullmatch_number. simpl. now rewrite Hc, Ha. }
  split; [|auto].
  change (String c (a ++ String "-" r2)) with (String c a ++ String "-" r2).
  rewrite (split_app "-" (String c a) r2).
  - rewrite split_no_sep; [reflexivity|].
    unfold fullmatch_number in Hr2. apply andb_prop in Hr2.
    now apply decimals_no_dash.
  - apply decimals_no_dash. cbn [forallb]. now rewrite Hc, Ha.
Qed.

Lemma split_contains (c : ascii) (s : string) :
  contains c s = true -> exists a b rest, split c s = a :: b :: rest.
Proof.
  induction s as [|d s IH]; simpl; [discriminate|].
  destruct (Ascii.eqb d c).
  - intros _. destruct s as [|e s]; simpl.
    + eauto.
    + destruct (Ascii.eqb e c); [eauto|]. destruct (split c s); eauto.
  - simpl. intros H. destruct (IH H) as (a & b & rest & ->). eauto.
Qed.

Lemma int_number (s : string) :
  fullmatch_number s = true -> len s <= MAX_STR_DIGITS ->
  int s = Ok (decimal_value 0 s).
Proof.
  unfold int. intros -> Hl.
  destruct (Z.ltb_spec MAX_STR_DIGITS (len s)); [lia | reflexivity].
Qed.

Lemma split_len (c : ascii) (s : string) :
  forall x, In x (split c s) -> len x <= len s.
Proof.
  unfold len. induction s as [|d s IH]; simpl.
  - intros x [<-|[]]. simpl. lia.
  - destruct (Ascii.eqb d c).
    + intros x [<-|Hx]; [simpl; lia|]. specialize (IH _ Hx). lia.
    + destruct (split c s) as [|w ws] eqn:E.
      * intros x [<-|[]]. simpl. lia.
      * intros x [<-|Hx].
        -- specialize (IH w (or_introl eq_refl)). simpl. lia.
        -- specialize (IH x (or_intror Hx)). lia.
Qed.

End PyStrFacts.

(** ** Claims on the field parser *)

Lemma parse_field_ok (field : string) (min_ max_ : Z) (field_name : string)
  (l : list Z) :
  parse_field field min_ max_ field_name = Ok l ->
  exists res,
    extend_parts (PyStr.split "," field) [] min_ max_ field_name = Ok res
    /\ l = PyList.sorted (PyList.set res)
    /\ StronglySorted Z.lt l /\ within min_ max_ l.
Proof.
  intros H. unfold parse_field in H. bind_inv H. injection H as <-.
  exists v. split; [assumption|]. split; [reflexivity|].
  destruct (PyListFacts.sorted_set_spec v) as [Hs Hin].
  split; [exact Hs|].
  apply extend_parts_ok in Hv. destruct Hv as (H1 & _ & _).
  apply Forall_forall. intros x Hx. apply Hin, H1 in Hx.
  destruct Hx as [[]|(p & vs & _ & Hp & Hx)].
  apply parse_part_within in Hp. unfold within in Hp.
  rewrite Forall_forall in Hp. now apply Hp.
Qed.

(** X23: the list a successful [parse_field] returns is strictly ascending,
    has no duplicates and lies within [[min_, max_]]; its values are those
    that [parse_part] gives for some atom of the field; it is not empty
    when some atom has no step suffix or has base [*]. *)
Theorem parse_field_ascending_within
  (field : string) (min_ max_ : Z) (field_name : string) (l : list Z) :
  min_ <= max_ ->
  parse_field field min_ max_ field_name = Ok l ->
  StronglySorted Z.lt l /\ NoDup l /\ within min_ max_ l
  /\ (forall v, In v l <->
        exists part vals, In part (PyStr.split "," field)
          /\ parse_part part min_ max_ field_name = Ok vals /\ In v vals)
  /\ ((exists part, In part (PyStr.split "," field)
         /\ (PyStr.contains "/" part = false
             \/ exists step_str, PyStr.split "/" part = ["*"; step_str]))
      -> l <> []).
Proof.
  intros Hmm H. apply parse_field_ok in H.
  destruct H as (v & Hv & -> & Hs & Hw).
  destruct (PyListFacts.sorted_set_spec v) as [_ Hin].
  apply extend_parts_ok in Hv. destruct Hv as (H1 & H2 & _).
  split; [exact Hs|]. split; [now apply PyListFacts.strict_nodup|].
  split; [exact Hw|].
  split.
  { intros x. split.
    - intros Hx. apply Hin, H1 in Hx. destruct Hx as [[]|Hx]. exact Hx.
    - intros (part & vals & Hp & Hv' & Hx).
      destruct (H2 _ Hp) as (vs & Hvs & Hincl).
      rewrite Hv' in Hvs. injection Hvs as <-. apply Hin, Hincl, Hx. }
  intros (part & Hpart & Hshape).
  destruct (H2 _ Hpart) as (vs & Hp & Hincl).
  assert (Hex : exists x, In x vs).
  { apply parse_part_ok in Hp.
    destruct Hp as [[_ Hr]|(a & b & rv & st & Hsp & Hr & _ & Hst & ->)].
    - eapply parse_range_nonempty; eauto.
    - destruct Hshape as [Hc|(s' & Hs')].
      + rewrite (PyStrFacts.split_no_sep _ _ Hc) in Hsp. discriminate.
      + rewrite Hs' in Hsp. injection Hsp as <- <-.
        unfold parse_range in Hr. simpl in Hr. injection Hr as <-.
        exists min_. apply filter_In. split.
        * apply PyListFacts.in_range. lia.
        * rewrite Z.sub_diag, Z.mod_0_l by lia. reflexivity. }
  destruct Hex as (x & Hx). intros E.
  apply Hincl, Hin in Hx. rewrite E in Hx. exact Hx.
Qed.

Lemma parse_field_ascending_within_witness :
  0 <= 59 /\ parse_field "10-12,5,*/20" 0 59 "minute" = Ok [0; 5; 10; 11; 12; 20; 40]
  /\ StronglySorted Z.lt [0; 5; 10; 11; 12; 20; 40].
Proof.
  assert (H : parse_field "10-12,5,*/20" 0 59 "minute" = Ok [0; 5; 10; 11; 12; 20; 40])
    by reflexivity.
  split; [lia|]. split; [exact H|].
  exact (proj1 (parse_field_ascending_within _ 0 59 _ _ ltac:(lia) H)).
Defined.

(** C4 on the minute field [1/2]: the step keeps the values [v] of the base
    with [(v - 0) mod 2 = 0], the base [1] has none, and [parse_field]
    returns the empty list instead of failing, although [parse_range]
    refuses the empty range [5-3].  [parse_cron_expression] then builds an
    iterator with no minute, and its first [next] raises [IndexError] at
    [candidates[0]] in [to_next_value]. *)
Theorem empty_field_accepted :
  parse_field "1/2" 0 59 "minute" = Ok []
  /\ parse_field "5-3" 0 59 "minute"
     = Raise (ValueError "minute field contains invalid range '5-3'")
  /\ (it <- schedule "1/2 * * * *" 2023 1 1 0 0 ;; Ok (it_minute it)) = Ok []
  /\ (it <- schedule "1/2 * * * *" 2023 1 1 0 0 ;;
      r <- next it ;;
      Ok (fst r))
     = Raise IndexError.
Proof. repeat split; vm_compute; reflexivity. Qed.

(** C5: an atom [base/S] with a positive integer [S] parses to the values
    [v] of [base] with [(v - min_) mod S = 0], counted from the minimum of
    the domain; [*/15] gives [0, 15] on hours and [0, 15, 30, 45] on
    minutes. *)
Theorem step_filters_from_min
  (base step_str : string) (min_ max_ : Z) (field_name : string) (step : Z) :
  PyStr.contains "/" base = false ->
  PyStr.int step_str = Ok step ->
  0 < step ->
  parse_part (base ++ "/" ++ step_str) min_ max_ field_name
  = (vals <- parse_range base min_ max_ field_name ;;
     Ok (filter (fun v => (v - min_) mod step =? 0) vals))
  /\ (forall vals res,
        parse_range base min_ max_ field_name = Ok vals ->
        parse_part (base ++ "/" ++ step_str) min_ max_ field_name = Ok res ->
        forall v, In v res <-> In v vals /\ (v - min_) mod step = 0)
  /\ parse_field "*/15" 0 23 "hour" = Ok [0; 15]
  /\ parse_field "*/15" 0 59 "minute" = Ok [0; 15; 30; 45].
Proof.
  intros Hbase Hint Hpos.
  assert (E : parse_part (base ++ "/" ++ step_str) min_ max_ field_name
              = (vals <- parse_range base min_ max_ field_name ;;
                 Ok (filter (fun v => (v - min_) mod step =? 0) vals))).
  { destruct (PyStrFacts.int_ok _ _ Hint) as [Hnum _].
    unfold parse_part. simpl append.
    rewrite PyStrFacts.contains_app, (PyStrFacts.split_app _ _ _ Hbase).
    rewrite (PyStrFacts.split_no_sep _ _ (PyStrFacts.number_no_slash _ Hnum)).
    destruct (parse_range base min_ max_ field_name) as [vals|e]; simpl; [|reflexivity].
    rewrite (PyStrFacts.number_isdigit _ Hnum), Hint. simpl.
    destruct (Z.leb_spec step 0); [lia | reflexivity]. }
  split; [exact E|]. split; [|split; reflexivity].
  intros vals res Hr Hp v. rewrite E, Hr in Hp. simpl in Hp. injection Hp as <-.
  rewrite filter_In, Z.eqb_eq. tauto.
Qed.

Lemma step_filters_from_min_witness :
  parse_part ("10-40" ++ "/" ++ "15") 0 59 "minute" = Ok [15; 30].
Proof.
  rewrite (proj1 (step_filters_from_min "10-40" "15" 0 59 "minute" 15
                    eq_refl eq_refl ltac:(lia))).
  reflexivity.
Defined.

(** ** Next-or-wrap search *)

Lemma first_ge_none (current : Z) (l : list Z) :
  (forall c, In c l -> c < current) -> first_ge current l = None.
Proof.
  induction l as [|c l IH]; simpl; intros H; [reflexivity|].
  destruct (Z.geb_spec c current) as [Hge|_].
  - specialize (H c (or_introl eq_refl)). lia.
  - apply IH. intros d Hd. apply H. now right.
Qed.

Lemma first_ge_some (current c : Z) (l : list Z) :
  first_ge current l = Some c -> In c l /\ current <= c.
Proof.
  induction l as [|d l IH]; simpl; [discriminate|].
  destruct (Z.geb_spec d current) as [Hge|_].
  - intros H. injection H as <-. split; [now left | lia].
  - intros H. apply IH in H. tauto.
Qed.

(** What [to_next_value] returns: the distance to a candidate at or after
    [current], or else the wrap-around value from [candidates[0]]. *)
Lemma to_next_value_ok (current : Z) (candidates : list Z) (min_ max_ d : Z) :
  to_next_value current candidates min_ max_ = Ok d ->
  (exists c, In c candidates /\ current <= c /\ d = c - current)
  \/ (exists c0 rest, candidates = c0 :: rest
        /\ d = c0 + max_ + min_ + 1 - current).
Proof.
  unfold to_next_value.
  destruct (first_ge current (PyList.sorted candidates)) as [c|] eqn:E.
  - intros H. injection H as <-. left. apply first_ge_some in E.
    exists c. rewrite PyListFacts.in_sorted in E. tauto.
  - destruct candidates as [|c0 rest]; simpl; [discriminate|].
    intros H. injection H as <-. right. exists c0, rest. auto.
Qed.

Lemma to_next_value_total (current : Z) (candidates : list Z) (min_ max_ : Z) :
  candidates <> [] -> exists d, to_next_value current candidates min_ max_ = Ok d.
Proof.
  unfold to_next_value. intros Hne.
  destruct (first_ge current (PyList.sorted candidates)) as [c|]; [eauto|].
  destruct candidates as [|c0 rest]; [congruence | simpl; eauto].
Qed.

(** C6, as the code has it: when no candidate is at or after [current], the
    search returns [candidates[0] + max_ + min_ + 1 - current]; this is the
    roll-over delta of the ring of width [max_ - min_ + 1] plus [2 * min_],
    hence that delta exactly when [min_ = 0], as for minutes and hours. *)
Theorem to_next_value_wrap (current c0 : Z) (rest : list Z) (min_ max_ : Z) :
  Forall (fun c => c < current) (c0 :: rest) ->
  to_next_value current (c0 :: rest) min_ max_
  = Ok (c0 + max_ + min_ + 1 - current)
  /\ c0 + max_ + min_ + 1 - current = ring_delta c0 min_ max_ current + 2 * min_
  /\ (min_ = 0 ->
      to_next_value current (c0 :: rest) min_ max_
      = Ok (ring_delta c0 min_ max_ current)).
Proof.
  intros Hall.
  assert (E : to_next_value current (c0 :: rest) min_ max_
              = Ok (c0 + max_ + min_ + 1 - current)).
  { unfold to_next_value. rewrite first_ge_none; [reflexivity|].
    intros c Hc. apply -> PyListFacts.in_sorted in Hc.
    rewrite Forall_forall in Hall. now apply Hall. }
  split; [exact E|]. split.
  - unfold ring_delta. lia.
  - intros ->. rewrite E. unfold ring_delta. f_equal. lia.
Qed.

Lemma to_next_value_wrap_witness :
  to_next_value 50 [0; 15; 30; 45] 0 59 = Ok (ring_delta 0 0 59 50).
Proof.
  apply (to_next_value_wrap 50 0 [15; 30; 45] 0 59); [|reflexivity].
  repeat constructor.
Defined.

(** C6 as the specification states it fails on a domain that does not start
    at 0: on days of the month, with the single candidate 1 and current
    value 2, the search returns 32 and the ring delta is 30. *)
Lemma to_next_value_wrap_not_ring :
  within 1 31 [1] /\ StronglySorted Z.lt [1] /\ 1 <= 2 <= 31
  /\ Forall (fun c => c < 2) [1]
  /\ to_next_value 2 [1] 1 31 = Ok 32
  /\ ring_delta 1 1 31 2 = 30
  /\ to_next_value 2 [1] 1 31 <> Ok (ring_delta 1 1 31 2).
Proof.
  repeat split; try (repeat constructor; lia); try lia.
  discriminate.
Qed.

(** ** Errors of the field parser

    Every [raise] of [parse_range] and [parse_part] names the field and the
    text at fault.  An atom of none of the four shapes gets such an error,
    unless it has two or more slashes, a superscript digit in its step, or
    more digits than [int] converts: then the error comes from the unpacking
    or from [int]. *)

Ltac names_field := eexists; simpl append; reflexivity.

Section FieldErrors.
Variables (min_ max_ : Z) (field_name : string).

Lemma parse_range_raises (s : string) (e : exn) :
  PyStr.len s <= PyStr.MAX_STR_DIGITS ->
  parse_range s min_ max_ field_name = Raise e ->
  exists txt, e = ValueError (field_name ++ " field contains " ++ txt).
Proof.
  intros Hlen. unfold parse_range.
  destruct (String.eqb s "*"); [discriminate|].
  destruct (PyStr.fullmatch_number s) eqn:En.
  { rewrite (PyStrFacts.int_number _ En Hlen). cbn [bind].
    destruct (_ || _); [|discriminate].
    intros H. injection H as <-. names_field. }
  destruct (PyStr.fullmatch_range s) eqn:Er.
  - destruct (PyStrFacts.fullmatch_range_split _ Er) as (a & b & Es & Ha & Hb).
    assert (La : PyStr.len a <= PyStr.len s).
    { apply (PyStrFacts.split_len "-"). rewrite Es. now left. }
    assert (Lb : PyStr.len b <= PyStr.len s).
    { apply (PyStrFacts.split_len "-"). rewrite Es. right. now left. }
    rewrite Es.
    rewrite (PyStrFacts.int_number _ Ha), (PyStrFacts.int_number _ Hb) by lia.
    cbn [bind]. destruct (_ || _); [|discriminate].
    intros H. injection H as <-. names_field.
  - intros H. injection H as <-. names_field.
Qed.


Lemma parse_range_bad_shape (s : string) :
  base_shape s = false ->
  parse_range s min_ max_ field_name
  = Raise (ValueError (field_name ++ " field contains invalid range '" ++ s ++ "'")).
Proof.
  unfold base_shape, parse_range. intros H.
  apply orb_false_elim in H. destruct H as [H ->].
  apply orb_false_elim in H. destruct H as [-> ->]. reflexivity.
Qed.

(** X22: an atom of none of the four shapes, with at most one slash, no
    superscript digit in its step and at most [MAX_STR_DIGITS] characters,
    is refused with a [ValueError] whose message starts with the name of
    the field. *)
Lemma shape_error_names_field (part : string) :
  atom_shape part = false ->
  (List.length (PyStr.split "/" part) <= 2)%nat ->
  (forall a st, PyStr.split "/" part = [a; st] ->
                PyStr.isdigit st = PyStr.fullmatch_number st) ->
  PyStr.len part <= PyStr.MAX_STR_DIGITS ->
  exists txt,
    parse_part part min_ max_ field_name
    = Raise (ValueError (field_name ++ " field contains " ++ txt)).
Proof.
  unfold atom_shape, parse_part. intros Hshape Hlen Hstep Hdigits.
  apply orb_false_elim in Hshape. destruct Hshape as [Hbase Hsplit].
  destruct (PyStr.contains "/" part) eqn:Ec.
  - destruct (PyStrFacts.split_contains _ _ Ec) as (a & st & rest & E).
    assert (La : PyStr.len a <= PyStr.len part).
    { apply (PyStrFacts.split_len "/"). rewrite E. now left. }
    rewrite E in *. destruct rest as [|x rest]; [|simpl in Hlen; lia].
    specialize (Hstep a st eq_refl).
    destruct (parse_range a min_ max_ field_name) as [vals|e] eqn:Ea; cbn [bind].
    + destruct (base_shape a) eqn:Eb.
      * simpl in Hsplit. rewrite Hstep, Hsplit. cbn [negb]. names_field.
      * rewrite (parse_range_bad_shape _ Eb) in Ea. discriminate.
    + apply parse_range_raises in Ea; [|lia]. destruct Ea as (txt & ->). eauto.
  - rewrite (parse_range_bad_shape _ Hbase). names_field.
Qed.
End FieldErrors.

Lemma shape_error_names_field_witness :
  exists txt,
    parse_part "x/2" 0 59 "minute"
    = Raise (ValueError ("minute" ++ " field contains " ++ txt)).
Proof.
  apply shape_error_names_field.
  - reflexivity.
  - simpl. lia.
  - intros a st H. injection H as <- <-. reflexivity.
  - vm_compute. discriminate.
Defined.

(** Code point 178, the superscript two: [isdigit] accepts it, [int] does
    not, and the error of [int] does not name the field. *)
Lemma superscript_step_unnamed_error :
  let two := String (ascii_of_N 178) EmptyString in
  PyStr.isdigit two = true
  /\ parse_field ("1/" ++ two) 0 59 "minute"
     = Raise (ValueError ("invalid literal for int() with base 10: '" ++ two ++ "'")).
Proof. split; reflexivity. Qed.

(** An iterator is built only when the expression has five fields and each
    of them parses. *)
Lemma iterator_needs_valid_fields (expr : string) (start_date : option datetime)
  (now : datetime) (it : CronScheduleIterator) :
  parse_cron_expression expr start_date now = Ok it ->
  exists f0 f1 f2 f3 f4 l0 l1 l2 l3 l4,
    PyStr.split_ws (PyStr.strip expr) = [f0; f1; f2; f3; f4]
    /\ parse_field f0 0 59 "minute" = Ok l0
    /\ parse_field f1 0 23 "hour" = Ok l1
    /\ parse_field f2 1 31 "day of month" = Ok l2
    /\ parse_field (replace_month_string f3) 1 12 "month" = Ok l3
    /\ parse_field (replace_dow_string f4) 0 7 "day of week" = Ok l4.
Proof.
  unfold parse_cron_expression. intros H.
  destruct (PyStr.split_ws (PyStr.strip expr))
    as [|f0 [|f1 [|f2 [|f3 [|f4 [|f5 fs]]]]]]; try discriminate.
  do 5 bind_inv H. exists f0, f1, f2, f3, f4, v, v0, v1, v2, v3. auto 10.
Qed.

(** C7 on the atom [1/2/3]: it has none of the four shapes, and
    [parse_field] fails on it, but with the error of the two-target
    unpacking of [part.split('/')], whose message names neither the field
    nor the text. *)
Theorem two_slashes_unnamed_error :
  atom_shape "1/2/3" = false
  /\ parse_field "1/2/3" 0 59 "minute"
     = Raise (ValueError "too many values to unpack (expected 2)")
  /\ PyStr.mentions "minute" "too many values to unpack (expected 2)" = false
  /\ PyStr.mentions "1/2/3" "too many values to unpack (expected 2)" = false.
Proof. repeat split; reflexivity. Qed.

(** ** Symbolic names *)

Section Resolver.
Variable table : list (string * Z).

Hypothesis at_name :
  forall k v rest, In (k, v) table ->
    sub_keys table 0 (k ++ rest) = PyStr.str v ++ sub_keys table 0 rest.

Hypothesis at_other :
  forall c rest, PyStr.is_upper c = false ->
    sub_keys table 0 (String c rest) = String c (sub_keys table 0 rest).

Lemma sub_keys_tokens (ts : list token) :
  Forall (token_ok table) ts -> sub_keys table 0 (symbolic ts) = numeric ts.
Proof.
  induction 1 as [|t ts Ht _ IH]; [reflexivity|].
  destruct t as [k v|c]; simpl in *.
  - now rewrite (at_name _ _ _ Ht), IH.
  - now rewrite (at_other _ _ Ht), IH.
Qed.

End Resolver.

Lemma match_key_none (table : list (string * Z)) (c : ascii) (rest : string) :
  Forall (fun kv => match fst kv with
                    | String k0 _ => PyStr.is_upper k0 = true
                    | EmptyString => False
                    end) table ->
  PyStr.is_upper c = false ->
  match_key table (String c rest) = None.
Proof.
  intros Hkeys Hc. induction Hkeys as [|[k v] table Hk _ IH]; [reflexivity|].
  simpl in Hk. destruct k as [|k0 k]; [destruct Hk|].
  cbn [match_key PyStr.startswith].
  destruct (Ascii.eqb_spec k0 c) as [->|_]; [congruence|].
  exact IH.
Qed.

Lemma month_at_name (k : string) (v : Z) (rest : string) :
  In (k, v) MONTH_MAP ->
  sub_keys MONTH_MAP 0 (k ++ rest) = PyStr.str v ++ sub_keys MONTH_MAP 0 rest.
Proof.
  intros H. simpl in H.
  repeat (destruct H as [H|H]; [injection H as <- <-; reflexivity|]).
  destruct H.
Qed.

Lemma month_at_other (c : ascii) (rest : string) :
  PyStr.is_upper c = false ->
  sub_keys MONTH_MAP 0 (String c rest) = String c (sub_keys MONTH_MAP 0 rest).
Proof.
  intros H. cbn [sub_keys]. rewrite match_key_none; auto.
  repeat constructor.
Qed.

Lemma dow_at_name (k : string) (v : Z) (rest : string) :
  In (k, v) DOW_MAP ->
  sub_keys DOW_MAP 0 (k ++ rest) = PyStr.str v ++ sub_keys DOW_MAP 0 rest.
Proof.
  intros H. simpl in H.
  repeat (destruct H as [H|H]; [injection H as <- <-; reflexivity|]).
  destruct H.
Qed.

Lemma dow_at_other (c : ascii) (rest : string) :
  PyStr.is_upper c = false ->
  sub_keys DOW_MAP 0 (String c rest) = String c (sub_keys DOW_MAP 0 rest).
Proof.
  intros H. cbn [sub_keys]. rewrite match_key_none; auto.
  repeat constructor.
Qed.

(** C9: on a month or day-of-week text written with three-letter names,
    resolving the names and then parsing gives the same result (the same
    list, or the same error) as parsing the text with each name replaced by
    its number; [JAN,MAR] parses as [1,3]. *)
Theorem names_then_parse (ts : list token) (min_ max_ : Z) (field_name : string) :
  (Forall (token_ok MONTH_MAP) ts ->
   parse_field (replace_month_string (symbolic ts)) min_ max_ field_name
   = parse_field (numeric ts) min_ max_ field_name)
  /\ (Forall (token_ok DOW_MAP) ts ->
      parse_field (replace_dow_string (symbolic ts)) min_ max_ field_name
      = parse_field (numeric ts) min_ max_ field_name)
  /\ parse_field (replace_month_string "JAN,MAR") 1 12 "month"
     = parse_field "1,3" 1 12 "month"
  /\ parse_field "1,3" 1 12 "month" = Ok [1; 3].
Proof.
  split; [|split; [|split; reflexivity]]; intros H; f_equal.
  - apply sub_keys_tokens; auto using month_at_name, month_at_other.
  - apply sub_keys_tokens; auto using dow_at_name, dow_at_other.
Qed.

Lemma names_then_parse_witness :
  parse_field (replace_month_string "JAN-MAR,DEC/2") 1 12 "month"
  = parse_field "1-3,12/2" 1 12 "month"
  /\ parse_field (replace_dow_string "MON-FRI") 0 7 "day of week"
     = parse_field "1-5" 0 7 "day of week".
Proof.
  split.
  - apply (proj1 (names_then_parse
      [Name "JAN" 1; Lit "-"; Name "MAR" 3; Lit ","; Name "DEC" 12; Lit "/"; Lit "2"]
      1 12 "month")).
    repeat constructor; simpl; tauto.
  - apply (proj1 (proj2 (names_then_parse
      [Name "MON" 1; Lit "-"; Name "FRI" 5] 0 7 "day of week"))).
    repeat constructor; simpl; tauto.
Defined.

(** ** Dates and times *)

Module PyDateFacts.

Lemma wf_time (dt : datetime) :
  wf dt -> 0 <= hour dt <= 23 /\ 0 <= minute dt <= 59.
Proof. unfold wf. tauto. Qed.

Lemma key_minutes (dt : datetime) :
  key dt = (minutes_of dt * 60 + second dt) * 1000000 + microsecond dt.
Proof. reflexivity. Qed.

(** On well-formed values the comparison of the tuples is that of [key]. *)
Lemma cmp_key (a b : datetime) : wf a -> wf b -> cmp a b = (key a ?= key b).
Proof.
  unfold wf, cmp, fields, key. intros Ha Hb. simpl.
  destruct (Z.compare_spec (ordinal a) (ordinal b));
    [ destruct (Z.compare_spec (hour a) (hour b));
      [ destruct (Z.compare_spec (minute a) (minute b));
        [ destruct (Z.compare_spec (second a) (second b));
          [ destruct (Z.compare_spec (microsecond a) (microsecond b)) | | ]
        | | ]
      | | ]
    | | ];
    symmetry;
    first [ apply Z.compare_eq_iff | apply Z.compare_lt_iff | apply Z.compare_gt_iff ];
    lia.
Qed.

Lemma ltb_key (a b : datetime) : wf a -> wf b -> ltb a b = (key a <? key b).
Proof.
  intros Ha Hb. unfold ltb, Z.ltb. now rewrite cmp_key.
Qed.

Lemma leb_key (a b : datetime) : wf a -> wf b -> leb a b = (key a <=? key b).
Proof.
  intros Ha Hb. unfold leb, Z.leb. now rewrite cmp_key.
Qed.

Lemma add_ok (dt r : datetime) (td : Z) :
  add dt td = Ok r ->
  wf dt ->
  wf r /\ minutes_of r = minutes_of dt + td
  /\ second r = second dt /\ microsecond r = microsecond dt.
Proof.
  unfold add. fold (minutes_of dt).
  destruct ((0 <? (minutes_of dt + td) / 1440)
            && ((minutes_of dt + td) / 1440 <=? MAXORDINAL)) eqn:E; [|discriminate].
  intros H Hwf. injection H as <-. apply andb_prop in E. destruct E as [E1 E2].
  unfold wf, minutes_of in *. simpl.
  repeat split; try tauto; Z.to_euclidean_division_equations; lia.
Qed.

Lemma add_raises (dt : datetime) (td : Z) (e : exn) :
  add dt td = Raise e ->
  e = OverflowError
  /\ ((minutes_of dt + td) / 1440 <= 0 \/ MAXORDINAL < (minutes_of dt + td) / 1440).
Proof.
  unfold add. fold (minutes_of dt).
  destruct (Z.ltb_spec 0 ((minutes_of dt + td) / 1440));
    destruct (Z.leb_spec ((minutes_of dt + td) / 1440) MAXORDINAL);
    simpl; intros Hr; try discriminate; injection Hr as <-; split; auto; lia.
Qed.

Lemma replace_minute_ok (dt : datetime) (m : Z) :
  0 <= m <= 59 ->
  replace_minute dt m
  = Ok (mkdt (ordinal dt) (hour dt) m (second dt) (microsecond dt)).
Proof.
  intros Hm. unfold replace_minute, between.
  destruct (Z.leb_spec 0 m); destruct (Z.leb_spec m 59); simpl; auto; lia.
Qed.

End PyDateFacts.

(** ** The calendar

    The date of a [datetime] is kept as its ordinal.  The lemmas below show
    that nothing is lost: [ord2ymd] and [ymd2ord] are inverse to each other
    on the dates of the calendar, and dates compare as their ordinals. *)

Module CalendarFacts.

Lemma ord2ymd_eq (n : Z) :
  ord2ymd n =
  let n0 := n - 1 in
  let n400 := n0 / DI400Y in
  let r1 := n0 mod DI400Y in
  let n100 := r1 / DI100Y in
  let r2 := r1 mod DI100Y in
  let n4 := r2 / DI4Y in
  let r3 := r2 mod DI4Y in
  let n1 := r3 / 365 in
  let r4 := r3 mod 365 in
  let year := n400 * 400 + 1 + n100 * 100 + n4 * 4 + n1 in
  if (n1 =? 4) || (n100 =? 4) then (year - 1, 12, 31)
  else
    let '(m, d) := month_and_day r4 ((n1 =? 3) && (negb (n4 =? 24) || (n100 =? 3))) in
    (year, m, d).
Proof.
  unfold ord2ymd, month_and_day. cbv zeta.
  destruct (_ || _); [reflexivity|].
  destruct (_ >? _); reflexivity.
Qed.

Lemma year_split (n0 : Z) :
  let n400 := n0 / DI400Y in
  let r1 := n0 mod DI400Y in
  let n100 := r1 / DI100Y in
  let r2 := r1 mod DI100Y in
  let n4 := r2 / DI4Y in
  let r3 := r2 mod DI4Y in
  let n1 := r3 / 365 in
  let r4 := r3 mod 365 in
  0 <= n100 <= 4 /\ 0 <= n4 <= 24 /\ 0 <= n1 <= 4 /\ 0 <= r4 < 365
  /\ n0 = 146097 * n400 + 36524 * n100 + 1461 * n4 + 365 * n1 + r4
  /\ (n100 = 4 -> n4 = 0 /\ n1 = 0 /\ r4 = 0)
  /\ (n1 = 4 -> r4 = 0)
  /\ (n4 = 24 -> n100 <> 4 -> n1 <> 4).
Proof.
  unfold DI400Y, DI100Y, DI4Y. cbv zeta.
  Z.to_euclidean_division_equations; lia.
Qed.

Lemma days_before_year_split (a b c d : Z) :
  0 <= b <= 3 -> 0 <= c <= 24 -> 0 <= d <= 3 ->
  days_before_year (400 * a + 100 * b + 4 * c + d + 1)
  = 146097 * a + 36524 * b + 1461 * c + 365 * d.
Proof.
  intros. unfold days_before_year. cbv zeta.
  Z.to_euclidean_division_equations; lia.
Qed.

Lemma is_leap_split (a b c d : Z) :
  0 <= b <= 3 -> 0 <= c <= 24 -> 0 <= d <= 3 ->
  is_leap (400 * a + 100 * b + 4 * c + d + 1)
  = (d =? 3) && (negb (c =? 24) || (b =? 3)).
Proof.
  intros. unfold is_leap.
  repeat match goal with
         | |- context [?x =? ?y] => destruct (Z.eqb_spec x y)
         end; simpl; try reflexivity; exfalso;
    Z.to_euclidean_division_equations; lia.
Qed.

Lemma month_and_day_spec (leapyear : bool) (n : Z) :
  0 <= n < 365 + b2z leapyear -> month_and_day_ok leapyear n = true.
Proof.
  intros Hn.
  assert (H : forallb (month_and_day_ok leapyear) (PyList.range 0 (365 + b2z leapyear)) = true)
    by (destruct leapyear; vm_compute; reflexivity).
  rewrite forallb_forall in H. apply H. apply PyListFacts.in_range. lia.
Qed.

Lemma month_and_day_ok_inv (leapyear : bool) (n m d : Z) :
  0 <= n < 365 + b2z leapyear ->
  month_and_day n leapyear = (m, d) ->
  1 <= m <= 12
  /\ 1 <= d <= index DAYS_IN_MONTH m + b2z ((m =? 2) && leapyear)
  /\ index DAYS_BEFORE_MONTH m + b2z ((m >? 2) && leapyear) + d = n + 1.
Proof.
  intros Hn E. pose proof (month_and_day_spec leapyear n Hn) as H.
  unfold month_and_day_ok in H. rewrite E in H. unfold between in H.
  repeat (apply andb_prop in H; destruct H as [H ?]).
  repeat match goal with
         | H : (_ <=? _) = true |- _ => apply Z.leb_le in H
         | H : (_ =? _) = true |- _ => apply Z.eqb_eq in H
         end.
  lia.
Qed.

Lemma days_in_month_flag (y m : Z) :
  1 <= m <= 12 ->
  days_in_month y m = index DAYS_IN_MONTH m + b2z ((m =? 2) && is_leap y).
Proof.
  intros Hm. unfold days_in_month.
  destruct (Z.eqb_spec m 2) as [->|]; simpl; destruct (is_leap y); simpl; lia.
Qed.

Lemma december (y : Z) :
  is_leap y = true -> days_before_month y 12 = 335 /\ days_in_month y 12 = 31.
Proof. unfold days_before_month, days_in_month. intros ->. split; reflexivity. Qed.

(** The date that [ord2ymd] gives for [n] is a date of the calendar, and
    [ymd2ord] takes it back to [n]. *)
Theorem ymd2ord_ord2ymd (n : Z) :
  let '(y, m, d) := ord2ymd n in
  ymd2ord y m d = n /\ valid_date y m d /\ (1 <= n <= MAXORDINAL -> 1 <= y <= 9999).
Proof.
  rewrite ord2ymd_eq. cbv zeta.
  pose proof (year_split (n - 1)) as H. cbv zeta in H.
  set (n400 := (n - 1) / DI400Y) in *.
  set (n100 := (n - 1) mod DI400Y / DI100Y) in *.
  set (n4 := (n - 1) mod DI400Y mod DI100Y / DI4Y) in *.
  set (n1 := (n - 1) mod DI400Y mod DI100Y mod DI4Y / 365) in *.
  set (r4 := (n - 1) mod DI400Y mod DI100Y mod DI4Y mod 365) in *.
  destruct H as (H100 & H4 & H1 & Hr & Hn & Hend100 & Hend1 & Hno).
  destruct (Z.eqb_spec n1 4) as [E1|E1]; [|destruct (Z.eqb_spec n100 4) as [E100|E100]];
    cbn [orb].
  - (* the last day of a leap year that ends a 4-year cycle *)
    assert (Hc : n100 <> 4 /\ n4 <> 24).
    { split; intros E; [apply Hend100 in E; lia | apply Hno in E; auto; lia]. }
    replace (n400 * 400 + 1 + n100 * 100 + n4 * 4 + n1 - 1)
      with (400 * n400 + 100 * n100 + 4 * n4 + 3 + 1) by lia.
    assert (Hl : is_leap (400 * n400 + 100 * n100 + 4 * n4 + 3 + 1) = true).
    { rewrite is_leap_split by lia.
      destruct (Z.eqb_spec n4 24); [lia | reflexivity]. }
    assert (Hd := days_before_year_split n400 n100 n4 3 ltac:(lia) ltac:(lia) ltac:(lia)).
    destruct (december _ Hl) as [Hb Hi].
    unfold valid_date, ymd2ord. rewrite Hd, Hb, Hi. unfold MAXORDINAL. lia.
  - (* the last day of a 400-year cycle *)
    destruct (Hend100 E100) as (-> & -> & Er).
    replace (n400 * 400 + 1 + n100 * 100 + 0 * 4 + 0 - 1)
      with (400 * n400 + 100 * 3 + 4 * 24 + 3 + 1) by lia.
    assert (Hl : is_leap (400 * n400 + 100 * 3 + 4 * 24 + 3 + 1) = true).
    { rewrite is_leap_split by lia. reflexivity. }
    assert (Hd := days_before_year_split n400 3 24 3 ltac:(lia) ltac:(lia) ltac:(lia)).
    destruct (december _ Hl) as [Hb Hi].
    unfold valid_date, ymd2ord. rewrite Hd, Hb, Hi. unfold MAXORDINAL. lia.
  - replace (n400 * 400 + 1 + n100 * 100 + n4 * 4 + n1)
      with (400 * n400 + 100 * n100 + 4 * n4 + n1 + 1) by lia.
    assert (Hl := is_leap_split n400 n100 n4 n1 ltac:(lia) ltac:(lia) ltac:(lia)).
    assert (Hd := days_before_year_split n400 n100 n4 n1 ltac:(lia) ltac:(lia) ltac:(lia)).
    rewrite <- Hl.
    destruct (month_and_day r4 _) as [m d] eqn:Emd.
    apply month_and_day_ok_inv in Emd; [|destruct (is_leap _); simpl; lia].
    destruct Emd as (Hm & Hday & Hsum).
    unfold valid_date, ymd2ord, days_before_month.
    rewrite (days_in_month_flag _ _ Hm), Hd. unfold MAXORDINAL.
    repeat split; lia.
Qed.

Lemma days_before_year_next (y : Z) :
  days_before_year (y + 1) = days_before_year y + 365 + b2z (is_leap y).
Proof.
  unfold days_before_year, is_leap. cbv zeta.
  repeat match goal with
         | |- context [?x =? ?y] => destruct (Z.eqb_spec x y)
         end; cbn [andb orb negb b2z];
    Z.to_euclidean_division_equations; lia.
Qed.

Lemma days_before_year_mono (y y' : Z) :
  y <= y' -> days_before_year y <= days_before_year y'.
Proof.
  intros H. unfold days_before_year. cbv zeta.
  Z.to_euclidean_division_equations; lia.
Qed.

Ltac month_cases m H :=
  let C := fresh "C" in
  assert (C : m = 1 \/ m = 2 \/ m = 3 \/ m = 4 \/ m = 5 \/ m = 6 \/ m = 7
              \/ m = 8 \/ m = 9 \/ m = 10 \/ m = 11 \/ m = 12) by lia;
  clear H;
  repeat (destruct C as [C|C]; [subst m|]); [..|subst m].

Ltac table_values :=
  repeat match goal with
         | |- context [if ?b then _ else _] =>
             let v := eval vm_compute in b in change b with v; cbv iota
         | |- context [index ?l ?i] =>
             let v := eval vm_compute in (index l i) in change (index l i) with v
         | |- context [b2z ?b] =>
             let v := eval vm_compute in (b2z b) in change (b2z b) with v
         end.

Lemma day_of_year_bounds (y m d : Z) :
  valid_date y m d ->
  1 <= days_before_month y m + d <= 365 + b2z (is_leap y).
Proof.
  unfold valid_date, days_before_month, days_in_month. intros [Hm Hd]. revert Hd.
  month_cases m Hm; destruct (is_leap y); table_values; lia.
Qed.

Lemma day_of_year_lt (y m d m' d' : Z) :
  valid_date y m d -> valid_date y m' d' ->
  m < m' \/ (m = m' /\ d < d') ->
  days_before_month y m + d < days_before_month y m' + d'.
Proof.
  unfold valid_date, days_before_month, days_in_month. intros [Hm Hd] [Hm' Hd'] Hlt.
  revert Hd Hd' Hlt.
  month_cases m Hm; month_cases m' Hm'; destruct (is_leap y); table_values; lia.
Qed.

Lemma ymd2ord_lt (y m d y' m' d' : Z) :
  valid_date y m d -> valid_date y' m' d' ->
  y < y' \/ (y = y' /\ (m < m' \/ (m = m' /\ d < d'))) ->
  ymd2ord y m d < ymd2ord y' m' d'.
Proof.
  intros Hv Hv' [Hy|[<- Hmd]]; unfold ymd2ord.
  - pose proof (day_of_year_bounds _ _ _ Hv).
    pose proof (day_of_year_bounds _ _ _ Hv').
    pose proof (days_before_year_next y).
    pose proof (days_before_year_mono (y + 1) y' ltac:(lia)).
    lia.
  - pose proof (day_of_year_lt _ _ _ _ _ Hv Hv' Hmd). lia.
Qed.

Lemma ymd2ord_inj (y m d y' m' d' : Z) :
  valid_date y m d -> valid_date y' m' d' ->
  ymd2ord y m d = ymd2ord y' m' d' -> (y, m, d) = (y', m', d').
Proof.
  intros Hv Hv' E.
  destruct (Z.lt_trichotomy y y') as [H|[H|H]];
    [pose proof (ymd2ord_lt _ _ _ _ _ _ Hv Hv' (or_introl H)); lia | subst y'
    | pose proof (ymd2ord_lt _ _ _ _ _ _ Hv' Hv (or_introl H)); lia].
  destruct (Z.lt_trichotomy m m') as [H|[H|H]];
    [pose proof (ymd2ord_lt _ _ _ _ _ _ Hv Hv' (or_intror (conj eq_refl (or_introl H)))); lia
    | subst m'
    | pose proof (ymd2ord_lt _ _ _ _ _ _ Hv' Hv (or_intror (conj eq_refl (or_introl H)))); lia].
  unfold ymd2ord in E. f_equal. lia.
Qed.

(** A date of the calendar is the date of its ordinal. *)
Theorem ord2ymd_ymd2ord (y m d : Z) :
  valid_date y m d -> ord2ymd (ymd2ord y m d) = (y, m, d).
Proof.
  intros Hv. pose proof (ymd2ord_ord2ymd (ymd2ord y m d)) as H.
  destruct (ord2ymd (ymd2ord y m d)) as [[y' m'] d'].
  destruct H as (E & Hv' & _). now apply ymd2ord_inj.
Qed.

(** Dates compare as their ordinals do. *)
Theorem ordinal_order (n n' : Z) :
  let '(y, m, d) := ord2ymd n in
  let '(y', m', d') := ord2ymd n' in
  cmp_list [y; m; d] [y'; m'; d'] = (n ?= n').
Proof.
  pose proof (ymd2ord_ord2ymd n) as H. pose proof (ymd2ord_ord2ymd n') as H'.
  destruct (ord2ymd n) as [[y m] d]. destruct (ord2ymd n') as [[y' m'] d'].
  destruct H as (E & Hv & _). destruct H' as (E' & Hv' & _).
  rewrite <- E, <- E'. cbn [cmp_list].
  destruct (Z.compare_spec y y') as [->|H|H];
    [destruct (Z.compare_spec m m') as [->|H|H];
     [destruct (Z.compare_spec d d') as [->|H|H]| |]| |];
    symmetry;
    first [ apply Z.compare_eq_iff; reflexivity
          | apply Z.compare_lt_iff; apply ymd2ord_lt; auto; lia
          | apply Z.compare_gt_iff; apply ymd2ord_lt; auto; lia ].
Qed.

Lemma between_true (lo x hi : Z) : between lo x hi = true -> lo <= x <= hi.
Proof. unfold between. intros H. apply andb_prop in H. lia. Qed.

Lemma ymd2ord_range (y m d : Z) :
  1 <= y <= 9999 -> valid_date y m d -> 1 <= ymd2ord y m d <= MAXORDINAL.
Proof.
  intros Hy Hv. unfold ymd2ord.
  pose proof (day_of_year_bounds _ _ _ Hv).
  pose proof (days_before_year_next y).
  pose proof (days_before_year_mono 1 y ltac:(lia)) as Hlo.
  pose proof (days_before_year_mono (y + 1) 10000 ltac:(lia)) as Hhi.
  change (days_before_year 1) with 0 in Hlo.
  change (days_before_year 10000) with 3652059 in Hhi.
  unfold MAXORDINAL. lia.
Qed.

(** [datetime(...)] builds a well-formed value whose fields read back as
    given. *)
Lemma make_ok (y mo d h mi s us : Z) (dt : datetime) :
  make y mo d h mi s us = Ok dt ->
  wf dt /\ year dt = y /\ month dt = mo /\ day dt = d
  /\ hour dt = h /\ minute dt = mi /\ second dt = s /\ microsecond dt = us.
Proof.
  unfold make. intros H.
  repeat match type of H with
         | context [negb (between ?a ?b ?c)] =>
             let E := fresh "E" in
             destruct (between a b c) eqn:E; cbn [negb] in H;
             [apply between_true in E | discriminate H]
         end.
  injection H as <-.
  assert (Hv : valid_date y mo d) by (split; assumption).
  pose proof (ymd2ord_range _ _ _ E Hv).
  unfold wf, year, month, day. cbn [ordinal hour minute second microsecond].
  rewrite (ord2ymd_ymd2ord _ _ _ Hv). cbn [fst snd].
  repeat split; auto; lia.
Qed.

End CalendarFacts.

(** ** Time-of-day advancer *)

Lemma next_value_bounds (current hi d : Z) (candidates : list Z) :
  parsed_ok 0 hi candidates ->
  0 <= current <= hi ->
  to_next_value current candidates 0 hi = Ok d ->
  exists c, In c candidates /\ 0 <= c <= hi /\ 0 <= d
            /\ (current + d = c \/ current + d = c + hi + 1).
Proof.
  intros [_ Hin] Hcur H. unfold within in Hin. rewrite Forall_forall in Hin.
  apply to_next_value_ok in H.
  destruct H as [(c & Hc & Hle & ->)|(c0 & rest & -> & ->)].
  - exists c. specialize (Hin _ Hc). repeat split; try lia. assumption.
  - exists c0. specialize (Hin c0 (or_introl eq_refl)).
    repeat split; try lia. now left.
Qed.

(** [shift_time] on a well-formed time and non-empty sets inside their
    domains: it returns a time that is not earlier, with its minute and hour
    in the sets, or it raises [OverflowError] in the last two days of the
    calendar. *)
Lemma shift_time_cases (dt : datetime) (minutes hours : list Z) :
  wf dt -> parsed_ok 0 59 minutes -> parsed_ok 0 23 hours ->
  match shift_time dt minutes hours with
  | Ok r =>
      wf r /\ minutes_of dt <= minutes_of r
      /\ second r = second dt /\ microsecond r = microsecond dt
      /\ In (minute r) minutes /\ In (hour r) hours
  | Raise e => e = OverflowError /\ MAXORDINAL - 2 < ordinal dt
  end.
Proof.
  intros Hwf Hmi Hho. unfold shift_time.
  destruct (to_next_value_total (minute dt) minutes 0 59 (proj1 Hmi)) as [am Ham].
  rewrite Ham. cbn [bind].
  destruct (next_value_bounds _ _ _ _ Hmi (proj2 (PyDateFacts.wf_time _ Hwf)) Ham)
    as (c & Hc & Hcb & Ham0 & Hsum).
  destruct (add dt (td_minutes am)) as [dt1|e] eqn:Eadd; cbn [bind].
  2:{ apply PyDateFacts.add_raises in Eadd. destruct Eadd as [-> Hov].
      split; [reflexivity|].
      unfold td_minutes, minutes_of, wf, MAXORDINAL in *.
      Z.to_euclidean_division_equations; lia. }
  apply PyDateFacts.add_ok in Eadd; [|assumption].
  destruct Eadd as (Hwf1 & Hmin1 & Hs1 & Hu1).
  assert (Hm1 : minute dt1 = c).
  { unfold td_minutes, minutes_of, wf in *. lia. }
  rewrite (proj2 (PyListFacts.py_in_iff _ _)) by (rewrite Hm1; exact Hc).
  cbn [negb bind].
  destruct (to_next_value_total (hour dt1) hours 0 23 (proj1 Hho)) as [ah Hah].
  rewrite Hah. cbn [bind].
  destruct (next_value_bounds _ _ _ _ Hho (proj1 (PyDateFacts.wf_time _ Hwf1)) Hah)
    as (ch & Hch & Hchb & Hah0 & Hsumh).
  destruct (Z.gtb_spec ah 0) as [Hpos|Hzero].
  - destruct (add dt1 (td_hours ah)) as [dt3|e] eqn:Eadd3; cbn [bind].
    2:{ apply PyDateFacts.add_raises in Eadd3. destruct Eadd3 as [-> Hov].
        split; [reflexivity|].
        unfold td_minutes, td_hours, minutes_of, wf, MAXORDINAL in *.
        Z.to_euclidean_division_equations; lia. }
    apply PyDateFacts.add_ok in Eadd3; [|assumption].
    destruct Eadd3 as (Hwf3 & Hmin3 & Hs3 & Hu3).
    destruct Hmi as [Hne Hin]. destruct minutes as [|m0 rest]; [congruence|].
    cbn [PyList.head bind].
    assert (Hm0 : 0 <= m0 <= 59) by (inversion Hin; assumption).
    rewrite (PyDateFacts.replace_minute_ok _ _ Hm0).
    assert (Hh3 : hour dt3 = ch).
    { unfold td_minutes, td_hours, minutes_of, wf in *. lia. }
    unfold td_minutes, td_hours, minutes_of, wf in *. simpl.
    repeat split; try lia.
    rewrite Hh3. exact Hch.
  - assert (Hh1 : hour dt1 = ch) by (unfold wf in *; lia).
    unfold td_minutes, minutes_of, wf in *.
    repeat split; try lia; try tauto.
    + rewrite Hm1. exact Hc.
    + rewrite Hh1. exact Hch.
Qed.

Lemma shift_time_nonempty (dt r : datetime) (minutes hours : list Z) :
  shift_time dt minutes hours = Ok r -> minutes <> [] /\ hours <> [].
Proof.
  unfold shift_time. intros H. split; intros ->.
  - discriminate H.
  - do 3 bind_inv H. discriminate H.
Qed.

(** ** Date advancer *)

Section DateAdvancer.
Variables dom month_ dow : list Z.

Lemma next_day (dt dt' : datetime) :
  wf dt -> add dt (td_days 1) = Ok dt' ->
  wf (replace_midnight dt')
  /\ ordinal (replace_midnight dt') = ordinal dt + 1
  /\ ordinal dt + 1 <= MAXORDINAL
  /\ minutes_of dt <= minutes_of (replace_midnight dt')
  /\ second (replace_midnight dt') = second dt
  /\ microsecond (replace_midnight dt') = microsecond dt.
Proof.
  intros Hwf H. apply PyDateFacts.add_ok in H; [|assumption].
  destruct H as (Hwf' & Hmin & Hs & Hu).
  unfold replace_midnight, td_days, minutes_of, wf in *. simpl.
  repeat split; lia.
Qed.

(** The loop returns a date that matches, not earlier than its start, at
    the start itself or at midnight of a later day; or the calendar ends. *)
Lemma shift_date_loop_cases (fuel : nat) :
  forall dt, wf dt ->
    match shift_date_loop fuel dt dom month_ dow with
    | Ok r =>
        wf r /\ minutes_of dt <= minutes_of r
        /\ second r = second dt /\ microsecond r = microsecond dt
        /\ date_matches r dom month_ dow = true
        /\ (r = dt \/ (ordinal dt < ordinal r /\ hour r = 0 /\ minute r = 0))
    | Raise e => e = OverflowError
    end.
Proof.
  assert (Hstop : forall dt, wf dt -> date_matches dt dom month_ dow = true ->
            wf dt /\ minutes_of dt <= minutes_of dt
            /\ second dt = second dt /\ microsecond dt = microsecond dt
            /\ date_matches dt dom month_ dow = true
            /\ (dt = dt \/ (ordinal dt < ordinal dt /\ hour dt = 0 /\ minute dt = 0))).
  { intros dt Hwf Hm. split; [exact Hwf|]. split; [lia|]. auto 6. }
  induction fuel as [|fuel IH]; intros dt Hwf; cbn [shift_date_loop];
    destruct (date_matches dt dom month_ dow) eqn:Hm; auto;
    destruct (add dt (td_days 1)) as [dt'|e] eqn:Eadd; cbn [bind];
    try (apply PyDateFacts.add_raises in Eadd; tauto).
  - reflexivity.
  - destruct (next_day _ _ Hwf Eadd) as (Hwf' & Ho & _ & Hmin & Hs & Hu).
    specialize (IH _ Hwf').
    destruct (shift_date_loop fuel (replace_midnight dt') dom month_ dow) as [r|e];
      [|exact IH].
    destruct IH as (Hr & Hle & Hs' & Hu' & Hmr & Hwhere).
    split; [exact Hr|]. split; [lia|]. split; [congruence|].
    split; [congruence|]. split; [exact Hmr|].
    right. destruct Hwhere as [->|Hw]; [|lia].
    rewrite Ho. simpl. repeat split; lia.
Qed.

(** The loop of the source, one round at a time: the fuel that
    [shift_date] starts with never runs out before [add] raises. *)
Lemma shift_date_unfold (dt : datetime) :
  wf dt ->
  shift_date dt dom month_ dow
  = if date_matches dt dom month_ dow then Ok dt
    else dt' <- add dt (td_days 1) ;;
         shift_date (replace_midnight dt') dom month_ dow.
Proof.
  intros Hwf. unfold shift_date.
  destruct (Z.to_nat (MAXORDINAL - ordinal dt)) as [|fuel] eqn:F;
    cbn [shift_date_loop];
    destruct (date_matches dt dom month_ dow); try reflexivity;
    destruct (add dt (td_days 1)) as [dt'|e] eqn:Eadd; cbn [bind];
    try reflexivity;
    destruct (next_day _ _ Hwf Eadd) as (_ & Ho & Hmax & _).
  - lia.
  - rewrite Ho. f_equal. lia.
Qed.

Lemma shift_date_cases (dt : datetime) :
  wf dt ->
  match shift_date dt dom month_ dow with
  | Ok r =>
      wf r /\ minutes_of dt <= minutes_of r
      /\ second r = second dt /\ microsecond r = microsecond dt
      /\ date_matches r dom month_ dow = true
      /\ (r = dt \/ (ordinal dt < ordinal r /\ hour r = 0 /\ minute r = 0))
  | Raise e => e = OverflowError
  end.
Proof. apply shift_date_loop_cases. Qed.

End DateAdvancer.

(** ** Schedule iterator *)

(** One call of [next] on non-empty sets inside their domains: the value
    returned is at or after the cursor, the new cursor is after the value,
    and nothing but the end of the calendar makes the call raise. *)
Lemma next_cases (it : CronScheduleIterator) :
  wf (current it) ->
  parsed_ok 0 59 (it_minute it) -> parsed_ok 0 23 (it_hour it) ->
  match next it with
  | Ok (t, it') =>
      wf t /\ key (current it) <= key t /\ key t < key (current it')
      /\ wf (current it')
      /\ it_minute it' = it_minute it /\ it_hour it' = it_hour it
      /\ date_matches t (it_dom it) (it_month it) (it_dow it) = true
  | Raise e => e = OverflowError
  end.
Proof.
  intros Hwf Hmi Hho. unfold next.
  pose proof (shift_time_cases _ _ _ Hwf Hmi Hho) as H1.
  destruct (shift_time (current it) (it_minute it) (it_hour it)) as [dt1|e];
    cbn [bind]; [|tauto].
  destruct H1 as (Hwf1 & Hle1 & Hs1 & Hu1 & _).
  pose proof (shift_date_cases (it_dom it) (it_month it) (it_dow it) _ Hwf1) as H2.
  destruct (shift_date dt1 (it_dom it) (it_month it) (it_dow it)) as [dt2|e];
    cbn [bind]; [|exact H2].
  destruct H2 as (Hwf2 & Hle2 & Hs2 & Hu2 & Hm2 & _).
  assert (Hkey : key (current it) <= key dt2).
  { rewrite !PyDateFacts.key_minutes. rewrite Hs2, Hu2, Hs1, Hu1. lia. }
  rewrite (PyDateFacts.ltb_key _ _ Hwf2 Hwf).
  destruct (Z.ltb_spec (key dt2) (key (current it))) as [Hlt|_]; [lia|].
  destruct (add dt2 (td_minutes 1)) as [cur|e] eqn:Eadd; cbn [bind].
  - apply PyDateFacts.add_ok in Eadd; [|assumption].
    destruct Eadd as (Hwfc & Hminc & Hsc & Huc). cbn [current it_minute it_hour].
    split; [exact Hwf2|]. split; [exact Hkey|]. split.
    { rewrite !PyDateFacts.key_minutes. rewrite Hsc, Huc, Hminc.
      unfold td_minutes. lia. }
    auto.
  - apply PyDateFacts.add_raises in Eadd. tauto.
Qed.

(** The time of day of a value of [next]: in the minute and hour sets, or
    the midnight that [shift_date] resets to. *)
Lemma emitted_time_of_day (it it' : CronScheduleIterator) (t : datetime) :
  wf (current it) ->
  parsed_ok 0 59 (it_minute it) -> parsed_ok 0 23 (it_hour it) ->
  next it = Ok (t, it') ->
  (In (minute t) (it_minute it) /\ In (hour t) (it_hour it))
  \/ (hour t = 0 /\ minute t = 0).
Proof.
  intros Hwf Hmi Hho. unfold next.
  pose proof (shift_time_cases _ _ _ Hwf Hmi Hho) as H1.
  destruct (shift_time (current it) (it_minute it) (it_hour it)) as [dt1|e];
    cbn [bind]; [|discriminate].
  destruct H1 as (Hwf1 & _ & _ & _ & Hm & Hh).
  pose proof (shift_date_cases (it_dom it) (it_month it) (it_dow it) _ Hwf1) as H2.
  destruct (shift_date dt1 (it_dom it) (it_month it) (it_dow it)) as [dt2|e];
    cbn [bind]; [|discriminate].
  destruct H2 as (_ & _ & _ & _ & _ & Hwhere).
  destruct (ltb dt2 (current it)); [discriminate|].
  intros H. bind_inv H. injection H as <- _.
  destruct Hwhere as [->|Hw]; [left | right]; tauto.
Qed.

Lemma next_ok (it it' : CronScheduleIterator) (t : datetime) :
  wf (current it) ->
  within 0 59 (it_minute it) -> within 0 23 (it_hour it) ->
  next it = Ok (t, it') ->
  wf t /\ key (current it) <= key t /\ key t < key (current it')
  /\ wf (current it')
  /\ it_minute it' = it_minute it /\ it_hour it' = it_hour it.
Proof.
  intros Hwf Hmi Hho H.
  assert (Hne : it_minute it <> [] /\ it_hour it <> []).
  { unfold next in H. bind_inv H. eapply shift_time_nonempty; eauto. }
  pose proof (next_cases it Hwf (conj (proj1 Hne) Hmi) (conj (proj2 Hne) Hho)) as Hc.
  rewrite H in Hc. tauto.
Qed.

Lemma take_increasing (n : nat) :
  forall it l,
    wf (current it) ->
    within 0 59 (it_minute it) -> within 0 23 (it_hour it) ->
    take n it = Ok l ->
    Forall (fun t => wf t /\ key (current it) <= key t) l
    /\ StronglySorted (fun a b => key a < key b) l.
Proof.
  induction n as [|n IH]; intros it l Hwf Hmi Hho H; cbn [take] in H.
  - injection H as <-. split; constructor.
  - bind_inv H. destruct v as [t it']. cbn [fst snd] in H. bind_inv H.
    injection H as <-.
    destruct (next_ok _ _ _ Hwf Hmi Hho Hv) as (Ht & Hle & Hlt & Hwf' & Em & Eh).
    rewrite <- Em in Hmi. rewrite <- Eh in Hho.
    destruct (IH _ _ Hwf' Hmi Hho Hv0) as [Hall Hs].
    split.
    + constructor; [tauto|].
      eapply Forall_impl; [|exact Hall]. simpl. intros x [Hx Hk]. split; [assumption|lia].
    + constructor; [assumption|].
      eapply Forall_impl; [|exact Hall]. simpl. intros x [Hx Hk]. lia.
Qed.

Lemma init_ok (minute_ hour_ dom month_ dow : list Z) (start_date : option datetime)
  (now : datetime) (it : CronScheduleIterator) :
  let start := match start_date with Some d => d | None => now end in
  wf start ->
  init minute_ hour_ dom month_ dow start_date now = Ok it ->
  wf (replace_second0 start) /\ wf (current it)
  /\ key (replace_second0 start) < key (current it)
  /\ it_minute it = minute_ /\ it_hour it = hour_.
Proof.
  intros start Hwf H. unfold init in H. fold start in H. bind_inv H.
  injection H as <-. simpl.
  assert (Hwf0 : wf (replace_second0 start)).
  { unfold wf, replace_second0 in *. simpl. lia. }
  apply PyDateFacts.add_ok in Hv; [|assumption].
  destruct Hv as (Hwfc & Hminc & Hsc & Huc).
  split; [exact Hwf0|]. split; [exact Hwfc|]. split; [|auto].
  rewrite !PyDateFacts.key_minutes. rewrite Hsc, Huc, Hminc. unfold td_minutes. lia.
Qed.

(** What [parse_cron_expression] hands to the constructor. *)
Lemma parse_cron_expression_ok (expr : string) (start_date : option datetime)
  (now : datetime) (it : CronScheduleIterator) :
  parse_cron_expression expr start_date now = Ok it ->
  exists minute_ hour_ dom month_ dow,
    within 0 59 minute_ /\ within 0 23 hour_
    /\ init minute_ hour_ dom month_ dow start_date now = Ok it.
Proof.
  unfold parse_cron_expression. intros H.
  destruct (PyStr.split_ws (PyStr.strip expr))
    as [|f0 [|f1 [|f2 [|f3 [|f4 [|f5 fs]]]]]]; try discriminate.
  do 5 bind_inv H.
  assert (Hmi : within 0 59 v).
  { apply parse_field_ok in Hv. destruct Hv as (? & _ & _ & _ & Hw). exact Hw. }
  assert (Hho : within 0 23 v0).
  { apply parse_field_ok in Hv0. destruct Hv0 as (? & _ & _ & _ & Hw). exact Hw. }
  eauto 10.
Qed.

Lemma sorted_by_key (l : list datetime) :
  Forall wf l -> StronglySorted (fun a b => key a < key b) l ->
  StronglySorted (fun a b => ltb a b = true) l.
Proof.
  intros Hwf Hs. induction Hs as [|t l Hs IH Ht]; constructor.
  - apply IH. now inversion Hwf.
  - inversion Hwf as [|? ? Hwt Hwl]; subst.
    rewrite Forall_forall in *. intros x Hx.
    rewrite PyDateFacts.ltb_key; auto. apply Z.ltb_lt. auto.
Qed.

(** C3: the values that successive calls of [next] return are strictly
    increasing, and each is after the start truncated to the minute.  The
    minute and hour sets are inside their domains, as [parse_field] returns
    them. *)
Theorem emitted_strictly_increasing
  (minute_ hour_ dom month_ dow : list Z) (start_date : option datetime)
  (now : datetime) (it : CronScheduleIterator) (n : nat) (l : list datetime) :
  within 0 59 minute_ -> within 0 23 hour_ ->
  wf (start_or_now start_date now) ->
  init minute_ hour_ dom month_ dow start_date now = Ok it ->
  take n it = Ok l ->
  StronglySorted (fun a b => ltb a b = true) l
  /\ Forall (fun t => ltb (replace_second0 (start_or_now start_date now)) t = true) l.
Proof.
  intros Hmi Hho Hwf Hinit Htake.
  destruct (init_ok _ _ _ _ _ _ _ _ Hwf Hinit) as (Hwf0 & Hwfc & Hlt & Em & Eh).
  rewrite <- Em in Hmi. rewrite <- Eh in Hho.
  destruct (take_increasing _ _ _ Hwfc Hmi Hho Htake) as [Hall Hs].
  split.
  - apply sorted_by_key; [|exact Hs].
    eapply Forall_impl; [|exact Hall]. simpl. tauto.
  - eapply Forall_impl; [|exact Hall]. simpl. intros t [Ht Hk].
    fold (start_or_now start_date now) in Hlt, Hwf0.
    rewrite PyDateFacts.ltb_key; auto. apply Z.ltb_lt. lia.
Qed.

Lemma emitted_strictly_increasing_witness :
  StronglySorted (fun a b => ltb a b = true)
    [new_year_2023 0 15; new_year_2023 0 30; new_year_2023 0 45; new_year_2023 1 0]
  /\ Forall (fun t => ltb (new_year_2023 0 5) t = true)
       [new_year_2023 0 15; new_year_2023 0 30; new_year_2023 0 45; new_year_2023 1 0].
Proof.
  refine (emitted_strictly_increasing [0; 15; 30; 45] (PyList.range 0 24)
            (PyList.range 1 32) (PyList.range 1 13) (PyList.range 0 7)
            (Some (new_year_2023 0 5)) (new_year_2023 0 5)
            (mkiter [0; 15; 30; 45] (PyList.range 0 24) (PyList.range 1 32)
               (PyList.range 1 13) (PyList.range 0 7) (new_year_2023 0 6))
            4 _ _ _ _ _ _).
  - repeat constructor; lia.
  - apply Forall_forall. intros v Hv. apply PyListFacts.in_range in Hv. lia.
  - vm_compute. intuition discriminate.
  - vm_compute. reflexivity.
  - vm_compute. reflexivity.
Defined.

(** C10: on non-empty minute and hour sets inside their domains,
    [shift_time] and [shift_date] return a time not earlier than their
    argument, so in [next] the test [dt < self.current] is false and
    [StopIteration] is never raised.  [shift_time] does return, except in
    the last two days of year 9999. *)
Theorem advancers_never_go_back
  (dt : datetime) (minutes hours dom month_ dow : list Z) :
  wf dt -> parsed_ok 0 59 minutes -> parsed_ok 0 23 hours ->
  (forall r, shift_time dt minutes hours = Ok r -> leb dt r = true)
  /\ (forall r, shift_date dt dom month_ dow = Ok r -> leb dt r = true)
  /\ (forall r, next (mkiter minutes hours dom month_ dow dt) = Ok r ->
        ltb (fst r) dt = false /\ leb dt (fst r) = true)
  /\ next (mkiter minutes hours dom month_ dow dt) <> Raise StopIteration
  /\ (ordinal dt <= MAXORDINAL - 2 -> exists r, shift_time dt minutes hours = Ok r).
Proof.
  intros Hwf Hmi Hho.
  pose proof (shift_time_cases _ _ _ Hwf Hmi Hho) as H1.
  pose proof (shift_date_cases dom month_ dow _ Hwf) as H2.
  pose proof (next_cases (mkiter minutes hours dom month_ dow dt) Hwf Hmi Hho) as H3.
  cbn [current it_minute it_hour it_dom it_month it_dow] in H3.
  split; [|split; [|split; [|split]]].
  - intros r Hr. rewrite Hr in H1. destruct H1 as (Hwr & Hle & Hs & Hu & _).
    rewrite PyDateFacts.leb_key; auto. apply Z.leb_le.
    rewrite !PyDateFacts.key_minutes. rewrite Hs, Hu. lia.
  - intros r Hr. rewrite Hr in H2. destruct H2 as (Hwr & Hle & Hs & Hu & _).
    rewrite PyDateFacts.leb_key; auto. apply Z.leb_le.
    rewrite !PyDateFacts.key_minutes. rewrite Hs, Hu. lia.
  - intros [t it'] Hr. rewrite Hr in H3. destruct H3 as (Hwt & Hle & _).
    cbn [fst]. rewrite PyDateFacts.ltb_key, PyDateFacts.leb_key; auto.
    split; [apply Z.ltb_ge | apply Z.leb_le]; lia.
  - intros E. rewrite E in H3. discriminate.
  - intros Ho. destruct (shift_time dt minutes hours) as [r|e]; [eauto|].
    destruct H1 as [_ H1]. lia.
Qed.

Lemma advancers_never_go_back_witness :
  leb (new_year_2023 0 6) (new_year_2023 0 15) = true
  /\ next (mkiter [0; 15; 30; 45] (PyList.range 0 24) [2] [1] [0; 1; 2; 3; 4; 5; 6]
             (new_year_2023 0 6)) <> Raise StopIteration.
Proof.
  assert (Hwf : wf (new_year_2023 0 6)) by (vm_compute; intuition discriminate).
  assert (Hmi : parsed_ok 0 59 [0; 15; 30; 45])
    by (split; [discriminate | repeat constructor; lia]).
  assert (Hho : parsed_ok 0 23 (PyList.range 0 24)).
  { split; [discriminate|]. apply Forall_forall. intros v Hv.
    apply PyListFacts.in_range in Hv. lia. }
  pose proof (advancers_never_go_back (new_year_2023 0 6) [0; 15; 30; 45]
                (PyList.range 0 24) [2] [1] [0; 1; 2; 3; 4; 5; 6] Hwf Hmi Hho) as H.
  split.
  - apply (proj1 H). vm_compute. reflexivity.
  - exact (proj1 (proj2 (proj2 (proj2 H)))).
Defined.

(** ** Scenarios *)

(** C8: [*/15 * * * *] started at 2023-01-01 00:05 gives 00:15, 00:30, 00:45
    and 01:00 of that day, in this order. *)
Theorem every_quarter_hour :
  (it <- schedule "*/15 * * * *" 2023 1 1 0 5 ;;
   l <- take 4 it ;;
   Ok (map ymdhm l))
  = Ok [(2023, 1, 1, 0, 15); (2023, 1, 1, 0, 30); (2023, 1, 1, 0, 45);
        (2023, 1, 1, 1, 0)]
  /\ (it <- schedule "*/15 * * * *" 2023 1 1 0 5 ;; take 4 it)
     = (t1 <- make 2023 1 1 0 15 0 0 ;;
        t2 <- make 2023 1 1 0 30 0 0 ;;
        t3 <- make 2023 1 1 0 45 0 0 ;;
        t4 <- make 2023 1 1 1 0 0 0 ;;
        Ok [t1; t2; t3; t4]).
Proof. split; vm_compute; reflexivity. Qed.

(** C1 on [0 9 2 * *] started at 2023-01-01 00:00: [shift_time] reaches
    09:00 of January 1, [shift_date] moves to January 2 and resets the time
    to 00:00, and [next] returns at once, without running [shift_time]
    again: the first value is 2023-01-02 00:00, and its hour 0 is not in the
    hour set [9]. *)
Theorem next_returns_reset_midnight :
  (it <- schedule "0 9 2 * *" 2023 1 1 0 0 ;;
   r <- next it ;;
   Ok (ymdhm (fst r), it_minute it, it_hour it,
       PyList.py_in (hour (fst r)) (it_hour it)))
  = Ok ((2023, 1, 2, 0, 0), [0], [9], false).
Proof. vm_compute. reflexivity. Qed.

(** 2023-01-01 was a Sunday: [weekday()] numbers it 6, [DOW_MAP] 0. *)
Lemma sunday_numbers :
  weekday (new_year_2023 0 0) = 6 /\ cron_weekday (new_year_2023 0 0) = 0.
Proof. split; reflexivity. Qed.

(** C2 on [0 9 * * MON-FRI] started at Friday 2023-01-06 10:00: the set
    parsed from [MON-FRI] is [1..5] in the numbering of [DOW_MAP], and
    [shift_date] compares it with [weekday()], which numbers Monday 0; the
    first value is 2023-01-07 09:00, a Saturday. *)
Theorem weekdays_include_saturday :
  (it <- schedule "0 9 * * MON-FRI" 2023 1 6 10 0 ;;
   r <- next it ;;
   Ok (ymdhm (fst r), it_dow it, weekday (fst r), cron_weekday (fst r)))
  = Ok ((2023, 1, 7, 9, 0), [1; 2; 3; 4; 5], 5, 6).
Proof. vm_compute. reflexivity. Qed.

(** * Further properties of the code *)

(** ** Sorted lists *)

Module PyListOrder.
Import PyList.

Lemma insert_le (x : Z) (l : list Z) :
  StronglySorted Z.le l -> StronglySorted Z.le (insert x l).
Proof.
  induction 1 as [|z l Hs IH Hz]; simpl.
  - repeat constructor.
  - destruct (Z.leb_spec x z) as [Hle|Hgt].
    + constructor; [now constructor|].
      constructor; [assumption|].
      eapply Forall_impl; [|exact Hz]. simpl. intros; lia.
    + constructor; [exact IH|].
      apply Forall_forall. intros y Hy. apply PyListFacts.in_insert in Hy.
      destruct Hy as [->|Hy]; [lia|].
      rewrite Forall_forall in Hz. now apply Hz.
Qed.

Lemma sorted_le (l : list Z) : StronglySorted Z.le (sorted l).
Proof.
  induction l as [|x l IH]; simpl; [constructor | now apply insert_le].
Qed.

Lemma head_least (c0 x : Z) (rest : list Z) :
  StronglySorted Z.lt (c0 :: rest) -> In x (c0 :: rest) -> c0 <= x.
Proof.
  intros Hs [->|Hx]; [lia|].
  inversion Hs as [|? ? _ Hall]; subst.
  rewrite Forall_forall in Hall. specialize (Hall _ Hx). lia.
Qed.

(** Two strictly ascending lists with the same values are the same list. *)
Lemma strict_ext (l1 : list Z) :
  forall l2,
    StronglySorted Z.lt l1 -> StronglySorted Z.lt l2 ->
    (forall v, In v l1 <-> In v l2) -> l1 = l2.
Proof.
  induction l1 as [|a l1 IH]; intros [|b l2] H1 H2 Hin.
  - reflexivity.
  - destruct (proj2 (Hin b) (or_introl eq_refl)).
  - destruct (proj1 (Hin a) (or_introl eq_refl)).
  - inversion H1 as [|? ? Hs1 Ha]; subst. inversion H2 as [|? ? Hs2 Hb]; subst.
    rewrite Forall_forall in Ha, Hb.
    assert (a = b).
    { destruct (proj1 (Hin a) (or_introl eq_refl)) as [E|Hab]; [auto|].
      destruct (proj2 (Hin b) (or_introl eq_refl)) as [E|Hba]; [auto|].
      specialize (Ha _ Hba). specialize (Hb _ Hab). lia. }
    subst b. f_equal. apply IH; auto.
    intros v. split; intros Hv.
    + destruct (proj1 (Hin v) (or_intror Hv)) as [E|Hv']; [|exact Hv'].
      specialize (Ha _ Hv). lia.
    + destruct (proj2 (Hin v) (or_intror Hv)) as [E|Hv']; [|exact Hv'].
      specialize (Hb _ Hv). lia.
Qed.

Lemma sorted_set_id (l : list Z) :
  StronglySorted Z.lt l -> sorted (set l) = l.
Proof.
  intros Hs. destruct (PyListFacts.sorted_set_spec l) as [Hs' Hin].
  now apply strict_ext.
Qed.

Lemma map_seq_strict (lo : Z) (n : nat) :
  forall s, StronglySorted Z.lt (map (fun i => lo + Z.of_nat i) (seq s n)).
Proof.
  induction n as [|n IH]; intros s; simpl; constructor; [apply IH|].
  apply Forall_forall. intros x Hx. apply in_map_iff in Hx.
  destruct Hx as (i & <- & Hi). apply in_seq in Hi. lia.
Qed.

Lemma range_strict (lo hi : Z) : StronglySorted Z.lt (range lo hi).
Proof. apply map_seq_strict. Qed.

Lemma filter_strict (f : Z -> bool) (l : list Z) :
  StronglySorted Z.lt l -> StronglySorted Z.lt (filter f l).
Proof.
  induction 1 as [|x l Hs IH Hx]; simpl; [constructor|].
  destruct (f x); [|exact IH]. constructor; [exact IH|].
  rewrite Forall_forall in *. intros y Hy. apply filter_In in Hy. now apply Hx.
Qed.

End PyListOrder.

(** ** The field parser on lists of atoms *)

Section Atoms.
Variables (min_ max_ : Z) (field_name : string).

(** The accumulator of the loop is a prefix of its result. *)
Lemma extend_parts_acc (parts : list string) :
  forall acc,
    extend_parts parts acc min_ max_ field_name
    = (res <- extend_parts parts [] min_ max_ field_name ;; Ok (acc ++ res)%list).
Proof.
  induction parts as [|p parts IH]; intros acc; simpl.
  - now rewrite app_nil_r.
  - destruct (parse_part p min_ max_ field_name) as [vals|e]; cbn [bind]; [|reflexivity].
    rewrite (IH (acc ++ vals)%list), (IH vals).
    destruct (extend_parts parts [] min_ max_ field_name); cbn [bind]; [|reflexivity].
    now rewrite app_assoc.
Qed.

Lemma extend_parts_app (p1 p2 : list string) (acc : list Z) :
  extend_parts (p1 ++ p2)%list acc min_ max_ field_name
  = (acc' <- extend_parts p1 acc min_ max_ field_name ;;
     extend_parts p2 acc' min_ max_ field_name).
Proof.
  revert acc. induction p1 as [|p p1 IH]; intros acc; simpl; [reflexivity|].
  destruct (parse_part p min_ max_ field_name) as [vals|e]; cbn [bind]; [|reflexivity].
  apply IH.
Qed.

End Atoms.

Lemma split_nonempty (c : ascii) (s : string) : PyStr.split c s <> [].
Proof.
  destruct s as [|d s]; simpl; [discriminate|].
  destruct (Ascii.eqb d c); [discriminate|].
  destruct (PyStr.split c s); discriminate.
Qed.

Lemma split_at_sep (c : ascii) (a b : string) :
  PyStr.split c (a ++ String c b) = (PyStr.split c a ++ PyStr.split c b)%list.
Proof.
  induction a as [|d a IH]; simpl.
  - now rewrite Ascii.eqb_refl.
  - destruct (Ascii.eqb d c); [now rewrite IH|].
    rewrite IH. destruct (PyStr.split c a) eqn:E; [|reflexivity].
    now apply split_nonempty in E.
Qed.

(** The loop of [parse_field] on a text [a,b]: first the atoms of [a], then
    those of [b]. *)
Lemma parse_field_comma (a b : string) (min_ max_ : Z) (field_name : string) :
  extend_parts (PyStr.split "," (a ++ "," ++ b)) [] min_ max_ field_name
  = (ra <- extend_parts (PyStr.split "," a) [] min_ max_ field_name ;;
     rb <- extend_parts (PyStr.split "," b) [] min_ max_ field_name ;;
     Ok (ra ++ rb)%list).
Proof.
  change (a ++ "," ++ b)%string with (a ++ String "," b)%string.
  rewrite split_at_sep, extend_parts_app.
  destruct (extend_parts (PyStr.split "," a) [] min_ max_ field_name) as [ra|e];
    cbn [bind]; [|reflexivity].
  apply extend_parts_acc.
Qed.

(** ** Numbers as text *)

Module PyNumberFacts.
Import PyStr.

Lemma uint_text_decimal (d : Decimal.uint) :
  forallb is_decimal (NilEmpty.string_of_uint d) = true.
Proof. induction d; simpl; auto. Qed.

Lemma value_acc (d : Decimal.uint) :
  forall acc : positive,
    decimal_value (Z.pos acc) (NilEmpty.string_of_uint d)
    = Z.pos (Pos.of_uint_acc d acc).
Proof.
  induction d; intros acc; cbn [NilEmpty.string_of_uint decimal_value Pos.of_uint_acc];
    try reflexivity; rewrite <- IHd; f_equal; unfold code; simpl N_of_ascii; lia.
Qed.

Lemma value_uint (d : Decimal.uint) :
  decimal_value 0 (NilEmpty.string_of_uint d) = Z.of_N (Pos.of_uint d).
Proof.
  induction d; cbn [NilEmpty.string_of_uint decimal_value Pos.of_uint Z.of_N];
    try reflexivity; try exact IHd; apply (value_acc d).
Qed.

Lemma str_nonneg (n : Z) :
  0 <= n ->
  exists d, d <> Decimal.Nil /\ str n = NilEmpty.string_of_uint d
            /\ Z.of_N (Pos.of_uint d) = n.
Proof.
  intros Hn. destruct n as [|p|p]; [| |lia].
  - exists (Decimal.D0 Decimal.Nil). repeat split. discriminate.
  - exists (Pos.to_uint p). split; [apply DecimalPos.Unsigned.to_uint_nonnil|].
    split.
    + unfold str. cbn [Z.to_int NilZero.string_of_int NilZero.string_of_uint].
      destruct (Pos.to_uint p) eqn:E; try reflexivity.
      now apply DecimalPos.Unsigned.to_uint_nonnil in E.
    + now rewrite DecimalPos.Unsigned.of_to.
Qed.

Lemma str_number (n : Z) : 0 <= n -> fullmatch_number (str n) = true.
Proof.
  intros Hn. destruct (str_nonneg n Hn) as (d & Hd & -> & _).
  unfold fullmatch_number. rewrite uint_text_decimal.
  destruct d; try reflexivity. congruence.
Qed.

Lemma value_str (n : Z) : 0 <= n -> decimal_value 0 (str n) = n.
Proof.
  intros Hn. destruct (str_nonneg n Hn) as (d & Hd & -> & E).
  now rewrite value_uint, E.
Qed.

(** [int(str(n)) == n] for a natural number [n] of at most [MAX_STR_DIGITS]
    digits. *)
Lemma int_str (n : Z) :
  0 <= n -> len (str n) <= MAX_STR_DIGITS -> int (str n) = Ok n.
Proof.
  intros Hn Hl.
  rewrite (PyStrFacts.int_number _ (str_number n Hn) Hl).
  now rewrite (value_str n Hn).
Qed.

Lemma number_not_star (s : string) :
  fullmatch_number s = true -> String.eqb s "*" = false.
Proof.
  unfold fullmatch_number. destruct s as [|c s]; [discriminate|]. simpl.
  intros H. apply andb_prop in H. destruct H as [H _].
  destruct (Ascii.eqb_spec c "*") as [->|]; [discriminate H | reflexivity].
Qed.

Lemma decimal_not_comma (c : ascii) : is_decimal c = true -> Ascii.eqb c "," = false.
Proof.
  intros H. destruct (Ascii.eqb_spec c ",") as [->|]; [discriminate H | reflexivity].
Qed.

Lemma number_no_comma (s : string) :
  fullmatch_number s = true -> contains "," s = false.
Proof.
  unfold fullmatch_number. intros H. apply andb_prop in H. destruct H as [_ H].
  induction s as [|c s IH]; simpl in *; [reflexivity|].
  apply andb_prop in H. destruct H as [Hc Hs].
  now rewrite (decimal_not_comma _ Hc), (IH Hs).
Qed.

End PyNumberFacts.

(** ** What the field parser returns *)

Lemma contains_append (c : ascii) (a b : string) :
  PyStr.contains c (a ++ b) = PyStr.contains c a || PyStr.contains c b.
Proof.
  induction a as [|d a IH]; simpl; [reflexivity|].
  now rewrite IH, orb_assoc.
Qed.

Lemma skip_decimals_to_dash (r y : string) :
  PyStr.forallb PyStr.is_decimal r = true ->
  PyStr.skip_decimals (r ++ String "-" y) = String "-" y.
Proof.
  induction r as [|c r IH]; simpl; [reflexivity|].
  intros H. apply andb_prop in H. destruct H as [-> Hr]. now apply IH.
Qed.

Lemma range_text (x y : string) :
  PyStr.fullmatch_number x = true -> PyStr.fullmatch_number y = true ->
  let text := x ++ String "-" y in
  String.eqb text "*" = false
  /\ PyStr.fullmatch_number text = false
  /\ PyStr.fullmatch_range text = true
  /\ PyStr.split "-" text = [x; y]
  /\ PyStr.contains "," text = false
  /\ PyStr.contains "/" text = false.
Proof.
  intros Hx Hy text.
  assert (Hx' := Hx). unfold PyStr.fullmatch_number in Hx'.
  apply andb_prop in Hx'. destruct Hx' as [Hne Hdx].
  assert (Hy' := Hy). unfold PyStr.fullmatch_number in Hy'.
  apply andb_prop in Hy'. destruct Hy' as [_ Hdy].
  destruct x as [|c r]; [discriminate|]. cbn [PyStr.forallb] in Hdx.
  apply andb_prop in Hdx. destruct Hdx as [Hc Hr].
  assert (Hdash : PyStr.contains "-" (String c r) = false).
  { apply PyStrFacts.decimals_no_dash. cbn [PyStr.forallb]. now rewrite Hc, Hr. }
  repeat split.
  - unfold text. simpl.
    destruct (Ascii.eqb_spec c "*") as [->|]; [discriminate Hc | reflexivity].
  - unfold text, PyStr.fullmatch_number. cbn [append PyStr.nonempty PyStr.forallb].
    rewrite Hc. simpl. clear - r. induction r as [|d r IH]; simpl.
    + reflexivity.
    + rewrite IH. apply andb_false_r.
  - unfold text. cbn [append PyStr.fullmatch_range].
    now rewrite Hc, (skip_decimals_to_dash _ _ Hr), Ascii.eqb_refl, Hy.
  - unfold text. rewrite (PyStrFacts.split_app _ _ _ Hdash).
    rewrite PyStrFacts.split_no_sep; [reflexivity|].
    now apply PyStrFacts.decimals_no_dash.
  - unfold text. rewrite contains_append, (PyNumberFacts.number_no_comma _ Hx).
    change (PyStr.contains "," (String "-" y)) with (PyStr.contains "," y).
    now rewrite (PyNumberFacts.number_no_comma _ Hy).
  - unfold text. rewrite contains_append, (PyStrFacts.number_no_slash _ Hx).
    change (PyStr.contains "/" (String "-" y)) with (PyStr.contains "/" y).
    now rewrite (PyStrFacts.number_no_slash _ Hy).
Qed.

Lemma one_atom (field : string) (min_ max_ : Z) (field_name : string) :
  PyStr.contains "," field = false ->
  PyStr.contains "/" field = false ->
  parse_field field min_ max_ field_name
  = (vals <- parse_range field min_ max_ field_name ;;
     Ok (PyList.sorted (PyList.set vals))).
Proof.
  intros Hc Hs. unfold parse_field.
  rewrite (PyStrFacts.split_no_sep _ _ Hc). cbn [extend_parts].
  unfold parse_part. rewrite Hs.
  destruct (parse_range field min_ max_ field_name); reflexivity.
Qed.

(** X1: the text [*] parses to the whole domain, in order. *)
Theorem parse_field_star (min_ max_ : Z) (field_name : string) :
  parse_field "*" min_ max_ field_name = Ok (PyList.range min_ (max_ + 1)).
Proof.
  rewrite one_atom by reflexivity.
  unfold parse_range. simpl String.eqb. cbn [bind].
  now rewrite PyListOrder.sorted_set_id by apply PyListOrder.range_strict.
Qed.

(** X2: the decimal text of a natural number [n] of at most [MAX_STR_DIGITS]
    digits parses to [[n]] when [n] is in the domain, and is refused as out
    of range otherwise, with [n] in the message. *)
Theorem parse_field_number (n min_ max_ : Z) (field_name : string) :
  0 <= n ->
  PyStr.len (PyStr.str n) <= PyStr.MAX_STR_DIGITS ->
  parse_field (PyStr.str n) min_ max_ field_name
  = if (n <? min_) || (n >? max_) then
      Raise (ValueError (field_name ++ " field contains out of range value '"
                         ++ PyStr.str n ++ "'"))
    else Ok [n].
Proof.
  intros Hn Hl. pose proof (PyNumberFacts.str_number n Hn) as Hnum.
  rewrite one_atom
    by auto using PyNumberFacts.number_no_comma, PyStrFacts.number_no_slash.
  unfold parse_range.
  rewrite (PyNumberFacts.number_not_star _ Hnum), Hnum, (PyNumberFacts.int_str n Hn Hl).
  cbn [bind]. destruct ((n <? min_) || (n >? max_)); reflexivity.
Qed.

Lemma parse_field_number_witness :
  parse_field "7" 0 59 "minute" = Ok [7]
  /\ parse_field "60" 0 59 "minute"
     = Raise (ValueError "minute field contains out of range value '60'").
Proof.
  split.
  - apply (parse_field_number 7 0 59 "minute"); [lia | vm_compute; discriminate].
  - apply (parse_field_number 60 0 59 "minute"); [lia | vm_compute; discriminate].
Defined.

(** X3: the text [a-b] of two natural numbers of at most [MAX_STR_DIGITS]
    digits each parses to the values from [a] to [b] inclusive when
    [min_ <= a <= b <= max_], and is refused as an invalid range otherwise. *)
Theorem parse_field_range (a b min_ max_ : Z) (field_name : string) :
  0 <= a -> 0 <= b ->
  PyStr.len (PyStr.str a) <= PyStr.MAX_STR_DIGITS ->
  PyStr.len (PyStr.str b) <= PyStr.MAX_STR_DIGITS ->
  parse_field (PyStr.str a ++ "-" ++ PyStr.str b) min_ max_ field_name
  = if (a >? b) || (a <? min_) || (b >? max_) then
      Raise (ValueError (field_name ++ " field contains invalid range '"
                         ++ (PyStr.str a ++ "-" ++ PyStr.str b) ++ "'"))
    else Ok (PyList.range a (b + 1)).
Proof.
  intros Ha Hb La Lb.
  destruct (range_text _ _ (PyNumberFacts.str_number a Ha) (PyNumberFacts.str_number b Hb))
    as (Hstar & Hnum & Hrange & Hsplit & Hcomma & Hslash).
  change (PyStr.str a ++ "-" ++ PyStr.str b)%string
    with (PyStr.str a ++ String "-" (PyStr.str b))%string.
  rewrite (one_atom _ _ _ _ Hcomma Hslash). unfold parse_range.
  rewrite Hstar, Hnum, Hrange, Hsplit.
  rewrite (PyNumberFacts.int_str a Ha La), (PyNumberFacts.int_str b Hb Lb). cbn [bind].
  destruct ((a >? b) || (a <? min_) || (b >? max_)); [reflexivity|]. cbn [bind].
  now rewrite PyListOrder.sorted_set_id by apply PyListOrder.range_strict.
Qed.

Lemma parse_field_range_witness :
  parse_field "10-12" 0 23 "hour" = Ok [10; 11; 12]
  /\ parse_field "5-3" 0 59 "minute"
     = Raise (ValueError "minute field contains invalid range '5-3'").
Proof.
  split.
  - apply (parse_field_range 10 12 0 23 "hour"); try lia; vm_compute; discriminate.
  - apply (parse_field_range 5 3 0 59 "minute"); try lia; vm_compute; discriminate.
Defined.

(** X4: the atoms of a field are united: when [a] and [b] both parse, [a,b]
    parses to the values of either, and so does [b,a], to the same list. *)
Theorem parse_field_union (a b : string) (min_ max_ : Z) (field_name : string)
  (la lb : list Z) :
  parse_field a min_ max_ field_name = Ok la ->
  parse_field b min_ max_ field_name = Ok lb ->
  exists l,
    parse_field (a ++ "," ++ b) min_ max_ field_name = Ok l
    /\ (forall v, In v l <-> In v la \/ In v lb)
    /\ parse_field (b ++ "," ++ a) min_ max_ field_name = Ok l.
Proof.
  unfold parse_field. intros Ha Hb. bind_inv Ha. bind_inv Hb.
  injection Ha as <-. injection Hb as <-.
  rewrite !parse_field_comma, Hv, Hv0. cbn [bind].
  exists (PyList.sorted (PyList.set (v ++ v0))). split; [reflexivity|].
  destruct (PyListFacts.sorted_set_spec (v ++ v0)) as [Hs Hin].
  destruct (PyListFacts.sorted_set_spec (v0 ++ v)) as [Hs' Hin'].
  destruct (PyListFacts.sorted_set_spec v) as [_ Hina].
  destruct (PyListFacts.sorted_set_spec v0) as [_ Hinb].
  split.
  - intros x. rewrite Hin, Hina, Hinb. apply in_app_iff.
  - f_equal. apply PyListOrder.strict_ext; auto.
    intros x. rewrite Hin, Hin', !in_app_iff. tauto.
Qed.

Lemma parse_field_union_witness :
  exists l,
    parse_field ("10-12" ++ "," ++ "5,11") 0 23 "hour" = Ok l
    /\ (forall v, In v l <-> In v [10; 11; 12] \/ In v [5; 11])
    /\ parse_field ("5,11" ++ "," ++ "10-12") 0 23 "hour" = Ok l.
Proof.
  exact (parse_field_union "10-12" "5,11" 0 23 "hour" [10; 11; 12] [5; 11]
           eq_refl eq_refl).
Defined.

(** X5: the atoms are parsed from the left and the first error is the one
    raised: an error in [a] is the error of [a,b], and when [a] parses, an
    error in [b] is the error of [a,b]. *)
Theorem parse_field_first_error (a b : string) (min_ max_ : Z) (field_name : string)
  (e : exn) :
  (parse_field a min_ max_ field_name = Raise e ->
   parse_field (a ++ "," ++ b) min_ max_ field_name = Raise e)
  /\ (forall la,
        parse_field a min_ max_ field_name = Ok la ->
        parse_field b min_ max_ field_name = Raise e ->
        parse_field (a ++ "," ++ b) min_ max_ field_name = Raise e).
Proof.
  unfold parse_field. rewrite parse_field_comma. split.
  - destruct (extend_parts (PyStr.split "," a) [] min_ max_ field_name);
      cbn [bind]; [discriminate | auto].
  - intros la.
    destruct (extend_parts (PyStr.split "," a) [] min_ max_ field_name);
      cbn [bind]; [|discriminate].
    intros _.
    destruct (extend_parts (PyStr.split "," b) [] min_ max_ field_name);
      cbn [bind]; [discriminate | auto].
Qed.

Lemma parse_field_first_error_witness :
  parse_field ("61" ++ "," ++ "x") 0 59 "minute"
  = Raise (ValueError "minute field contains out of range value '61'")
  /\ parse_field ("5" ++ "," ++ "x") 0 59 "minute"
     = Raise (ValueError "minute field contains invalid range 'x'").
Proof.
  split.
  - apply (proj1 (parse_field_first_error "61" "x" 0 59 "minute" _)). reflexivity.
  - apply (proj2 (parse_field_first_error "5" "x" 0 59 "minute" _) [5]); reflexivity.
Defined.

(** X6: a step that is not a string of digits, or is zero, is refused with
    the step in the message, once the base has parsed. *)
Theorem parse_part_bad_step
  (base step_str : string) (min_ max_ : Z) (field_name : string) (vals : list Z) :
  PyStr.contains "/" base = false ->
  PyStr.contains "/" step_str = false ->
  parse_range base min_ max_ field_name = Ok vals ->
  PyStr.isdigit step_str = false \/ PyStr.int step_str = Ok 0 ->
  parse_part (base ++ "/" ++ step_str) min_ max_ field_name
  = Raise (ValueError (field_name ++ " field contains invalid step value '"
                       ++ step_str ++ "'")).
Proof.
  intros Hbase Hstep Hr Hbad. unfold parse_part.
  change (base ++ "/" ++ step_str)%string with (base ++ String "/" step_str)%string.
  rewrite PyStrFacts.contains_app, (PyStrFacts.split_app _ _ _ Hbase).
  rewrite (PyStrFacts.split_no_sep _ _ Hstep), Hr. cbn [bind].
  destruct (PyStr.isdigit step_str) eqn:Ed; cbn [negb]; [|reflexivity].
  destruct Hbad as [Hbad|Hbad]; [discriminate|].
  rewrite Hbad. reflexivity.
Qed.

Lemma parse_part_bad_step_witness :
  parse_part ("*" ++ "/" ++ "0") 0 59 "minute"
  = Raise (ValueError "minute field contains invalid step value '0'")
  /\ parse_part ("1-5" ++ "/" ++ "-2") 0 59 "minute"
     = Raise (ValueError "minute field contains invalid step value '-2'").
Proof.
  split.
  - apply (parse_part_bad_step "*" "0" 0 59 "minute" (PyList.range 0 60));
      try reflexivity. now right.
  - apply (parse_part_bad_step "1-5" "-2" 0 59 "minute" [1; 2; 3; 4; 5]);
      try reflexivity. now left.
Defined.

(** ** The name resolver *)

(** X7: a text with no upper-case letter passes through both resolvers
    unchanged. *)
Theorem resolver_leaves_other_text (s : string) :
  PyStr.forallb (fun c => negb (PyStr.is_upper c)) s = true ->
  replace_month_string s = s /\ replace_dow_string s = s.
Proof.
  unfold replace_month_string, replace_dow_string.
  induction s as [|c s IH]; [split; reflexivity|].
  cbn [PyStr.forallb]. intros H. apply andb_prop in H. destruct H as [Hc Hs].
  apply negb_true_iff in Hc. destruct (IH Hs) as [IHm IHd].
  rewrite (month_at_other _ _ Hc), (dow_at_other _ _ Hc), IHm, IHd. auto.
Qed.

Lemma resolver_leaves_other_text_witness :
  replace_month_string "*/3,1-2" = "*/3,1-2" /\ replace_dow_string "*/3,1-2" = "*/3,1-2".
Proof. apply resolver_leaves_other_text. reflexivity. Defined.

(** X8: every month name parses, after resolution, to its number in [1, 12],
    and every weekday name to its number in [0, 6]. *)
Theorem names_parse_to_numbers (k : string) (v : Z) :
  (In (k, v) MONTH_MAP ->
   parse_field (replace_month_string k) 1 12 "month" = Ok [v])
  /\ (In (k, v) DOW_MAP ->
      parse_field (replace_dow_string k) 0 7 "day of week" = Ok [v]).
Proof.
  split; intros H; simpl in H;
    repeat (destruct H as [H|H]; [injection H as <- <-; reflexivity|]);
    destruct H.
Qed.

Lemma names_parse_to_numbers_witness :
  parse_field (replace_month_string "SEP") 1 12 "month" = Ok [9]
  /\ parse_field (replace_dow_string "SUN") 0 7 "day of week" = Ok [0].
Proof.
  split.
  - apply (proj1 (names_parse_to_numbers "SEP" 9)). simpl. tauto.
  - apply (proj2 (names_parse_to_numbers "SUN" 0)). simpl. tauto.
Defined.

(** ** The next-or-wrap search *)

Lemma first_ge_least (current c : Z) (l : list Z) :
  StronglySorted Z.le l ->
  first_ge current l = Some c ->
  forall x, In x l -> current <= x -> c <= x.
Proof.
  induction 1 as [|d l Hs IH Hd]; simpl; [discriminate|].
  rewrite Forall_forall in Hd.
  destruct (Z.geb_spec d current) as [Hge|Hlt].
  - intros E x [<-|Hx] Hc; injection E as <-; [lia|]. now apply Hd.
  - intros E x [<-|Hx] Hc; [lia|]. now apply IH.
Qed.

Lemma first_ge_none_inv (current : Z) (l : list Z) :
  first_ge current l = None -> forall x, In x l -> x < current.
Proof.
  induction l as [|d l IH]; simpl; [intros _ x []|].
  destruct (Z.geb_spec d current) as [Hge|Hlt]; [discriminate|].
  intros E x [<-|Hx]; [assumption | now apply IH].
Qed.

(** The two outcomes of the search, with what each says of every
    candidate. *)
Lemma to_next_value_exact (current : Z) (candidates : list Z) (min_ max_ d : Z) :
  to_next_value current candidates min_ max_ = Ok d ->
  (exists c, In c candidates /\ current <= c /\ d = c - current
             /\ forall x, In x candidates -> current <= x -> c <= x)
  \/ (exists c0 rest, candidates = c0 :: rest
        /\ d = c0 + max_ + min_ + 1 - current
        /\ forall x, In x candidates -> x < current).
Proof.
  unfold to_next_value.
  destruct (first_ge current (PyList.sorted candidates)) as [c|] eqn:E.
  - intros H. injection H as <-. left. exists c.
    destruct (first_ge_some _ _ _ E) as [Hc Hle].
    apply -> PyListFacts.in_sorted in Hc. repeat split; auto.
    intros x Hx. apply (first_ge_least _ _ _ (PyListOrder.sorted_le candidates) E).
    now apply PyListFacts.in_sorted.
  - destruct candidates as [|c0 rest]; simpl; [discriminate|].
    intros H. injection H as <-. right. exists c0, rest. repeat split.
    intros x Hx. apply (first_ge_none_inv _ _ E). now apply PyListFacts.in_sorted.
Qed.

(** X9: when some candidate is at or after [current], the search returns the
    distance to the least such candidate, whatever the order of the list and
    whatever the bounds. *)
Theorem to_next_value_least (current c : Z) (candidates : list Z) (min_ max_ : Z) :
  In c candidates -> current <= c ->
  exists c',
    to_next_value current candidates min_ max_ = Ok (c' - current)
    /\ In c' candidates /\ current <= c' <= c
    /\ forall x, In x candidates -> current <= x -> c' <= x.
Proof.
  intros Hc Hle.
  assert (Hne : candidates <> []) by (intros ->; destruct Hc).
  destruct (to_next_value_total current candidates min_ max_ Hne) as [d Hd].
  destruct (to_next_value_exact _ _ _ _ _ Hd)
    as [(c' & Hc' & Hle' & -> & Hleast)|(c0 & rest & _ & _ & Hall)].
  - exists c'. repeat split; auto; lia.
  - specialize (Hall _ Hc). lia.
Qed.

Lemma to_next_value_least_witness :
  exists c',
    to_next_value 20 [45; 0; 30; 15] 0 59 = Ok (c' - 20)
    /\ In c' [45; 0; 30; 15] /\ 20 <= c' <= 45
    /\ forall x, In x [45; 0; 30; 15] -> 20 <= x -> c' <= x.
Proof.
  apply (to_next_value_least 20 45 [45; 0; 30; 15] 0 59); [simpl; tauto | lia].
Defined.

(** ** The time-of-day advancer finds the earliest time *)

Lemma next_value_exact_bounds (current hi d : Z) (candidates : list Z) :
  parsed_ok 0 hi candidates -> StronglySorted Z.lt candidates ->
  0 <= current <= hi ->
  to_next_value current candidates 0 hi = Ok d ->
  exists c,
    In c candidates /\ 0 <= c <= hi
    /\ ((current + d = c /\ forall x, In x candidates -> current <= x -> c <= x)
        \/ (current + d = c + hi + 1
            /\ forall x, In x candidates -> x < current /\ c <= x)).
Proof.
  intros [_ Hin] Hs Hcur H. unfold within in Hin. rewrite Forall_forall in Hin.
  apply to_next_value_exact in H.
  destruct H as [(c & Hc & Hle & -> & Hleast)|(c0 & rest & -> & -> & Hall)].
  - exists c. specialize (Hin _ Hc). split; [assumption|]. split; [lia|].
    left. split; [lia | exact Hleast].
  - exists c0. specialize (Hin c0 (or_introl eq_refl)).
    split; [now left|]. split; [lia|]. right. split; [lia|].
    intros x Hx. split; [now apply Hall | now apply (PyListOrder.head_least c0 x rest)].
Qed.

Lemma shift_time_least (dt r t : datetime) (minutes hours : list Z) :
  wf dt -> parsed_ok 0 59 minutes -> parsed_ok 0 23 hours ->
  StronglySorted Z.lt minutes -> StronglySorted Z.lt hours ->
  shift_time dt minutes hours = Ok r ->
  wf t -> In (minute t) minutes -> In (hour t) hours ->
  minutes_of dt <= minutes_of t ->
  minutes_of r <= minutes_of t.
Proof.
  intros Hwf Hmi Hho Hsm Hsh H Hwt Hmt Hht Hge. unfold shift_time in H.
  bind_inv H. rename v into am, Hv into Ham.
  bind_inv H. rename v into dt1, Hv into Eadd.
  destruct (next_value_exact_bounds _ _ _ _ Hmi Hsm
              (proj2 (PyDateFacts.wf_time _ Hwf)) Ham) as (c & Hc & Hcb & Hcase).
  apply PyDateFacts.add_ok in Eadd; [|assumption].
  destruct Eadd as (Hwf1 & Hmin1 & _ & _).
  assert (Hm1 : minute dt1 = c).
  { unfold td_minutes, minutes_of, wf in *. lia. }
  rewrite (proj2 (PyListFacts.py_in_iff _ _)) in H by (rewrite Hm1; exact Hc).
  cbn [negb bind] in H.
  bind_inv H. rename v into ah, Hv into Hah.
  destruct (next_value_exact_bounds _ _ _ _ Hho Hsh
              (proj1 (PyDateFacts.wf_time _ Hwf1)) Hah) as (ch & Hch & Hchb & Hcaseh).
  assert (Fm : (minute dt + am = c /\ (minute dt <= minute t -> c <= minute t))
               \/ (minute dt + am = c + 59 + 1
                   /\ minute t < minute dt /\ c <= minute t)).
  { destruct Hcase as [[E Hl]|[E Hl]]; [left | right]; split; auto;
      exact (Hl _ Hmt). }
  assert (Fh : (hour dt1 + ah = ch /\ (hour dt1 <= hour t -> ch <= hour t))
               \/ (hour dt1 + ah = ch + 23 + 1
                   /\ hour t < hour dt1 /\ ch <= hour t)).
  { destruct Hcaseh as [[E Hl]|[E Hl]]; [left | right]; split; auto;
      exact (Hl _ Hht). }
  clear Hcase Hcaseh Ham Hah.
  destruct (Z.gtb_spec ah 0) as [Hpos|Hzero].
  - bind_inv H. rename v into dt3, Hv into Eadd3.
    bind_inv H. rename v into m0, Hv into Hhd.
    apply PyDateFacts.add_ok in Eadd3; [|assumption].
    destruct Eadd3 as (Hwf3 & Hmin3 & _ & _).
    destruct minutes as [|m0' rest]; [discriminate Hhd|]. injection Hhd as ->.
    assert (Hm0 : 0 <= m0 <= 59).
    { destruct Hmi as [_ Hin]. inversion Hin; assumption. }
    assert (Hm0t : m0 <= minute t) by now apply (PyListOrder.head_least m0 _ rest).
    rewrite (PyDateFacts.replace_minute_ok _ _ Hm0) in H. injection H as <-.
    unfold td_minutes, td_hours, minutes_of, wf in *. simpl. lia.
  - injection H as <-.
    unfold td_minutes, minutes_of, wf in *. lia.
Qed.

(** X10: on sorted, non-empty sets inside their domains, [shift_time] returns
    the earliest time, counted in minutes, at or after [dt] whose minute and
    hour are in the sets. *)
Theorem shift_time_earliest (dt r : datetime) (minutes hours : list Z) :
  wf dt -> parsed_ok 0 59 minutes -> parsed_ok 0 23 hours ->
  StronglySorted Z.lt minutes -> StronglySorted Z.lt hours ->
  shift_time dt minutes hours = Ok r ->
  In (minute r) minutes /\ In (hour r) hours
  /\ minutes_of dt <= minutes_of r
  /\ (forall t, wf t -> In (minute t) minutes -> In (hour t) hours ->
        minutes_of dt <= minutes_of t -> minutes_of r <= minutes_of t).
Proof.
  intros Hwf Hmi Hho Hsm Hsh H.
  pose proof (shift_time_cases _ _ _ Hwf Hmi Hho) as Hc. rewrite H in Hc.
  destruct Hc as (_ & Hle & _ & _ & Hm & Hh).
  split; [exact Hm|]. split; [exact Hh|]. split; [exact Hle|].
  intros t Ht Hmt Hht Hge. exact (shift_time_least _ _ _ _ _ Hwf Hmi Hho Hsm Hsh H Ht Hmt Hht Hge).
Qed.

Lemma shift_time_earliest_witness :
  minutes_of (new_year_2023 9 0) <= minutes_of (mkdt (ymd2ord 2023 1 2) 9 0 0 0).
Proof.
  assert (Hs : StronglySorted Z.lt [0; 30] /\ StronglySorted Z.lt [9; 17]).
  { split; repeat constructor; lia. }
  assert (Hp : parsed_ok 0 59 [0; 30] /\ parsed_ok 0 23 [9; 17]).
  { split; (split; [discriminate | repeat constructor; lia]). }
  assert (Hwf : forall o h m, 1 <= o <= MAXORDINAL -> 0 <= h <= 23 -> 0 <= m <= 59 ->
                                wf (mkdt o h m 0 0)).
  { intros. unfold wf. simpl. lia. }
  refine (proj2 (proj2 (proj2
    (shift_time_earliest (new_year_2023 8 31) (new_year_2023 9 0) [0; 30] [9; 17]
       _ (proj1 Hp) (proj2 Hp) (proj1 Hs) (proj2 Hs) _))) _ _ _ _ _).
  - apply Hwf; vm_compute; intuition discriminate.
  - vm_compute. reflexivity.
  - apply Hwf; vm_compute; intuition discriminate.
  - simpl. tauto.
  - simpl. tauto.
  - vm_compute. discriminate.
Defined.

(** ** The date advancer finds the first day that passes its test *)

Section FirstDay.
Variables dom month_ dow : list Z.

Lemma date_matches_ordinal (a b : datetime) :
  ordinal a = ordinal b ->
  date_matches a dom month_ dow = date_matches b dom month_ dow.
Proof.
  intros E. unfold date_matches, day, month, weekday. now rewrite E.
Qed.

Lemma day_matches_of (dt : datetime) :
  day_matches (ordinal dt) dom month_ dow = date_matches dt dom month_ dow.
Proof. apply date_matches_ordinal. reflexivity. Qed.

Lemma shift_date_loop_skips (fuel : nat) :
  forall dt r,
    wf dt -> shift_date_loop fuel dt dom month_ dow = Ok r ->
    forall n, ordinal dt <= n < ordinal r -> day_matches n dom month_ dow = false.
Proof.
  induction fuel as [|fuel IH]; intros dt r Hwf H n Hn; cbn [shift_date_loop] in H;
    destruct (date_matches dt dom month_ dow) eqn:Hm;
    try (injection H as <-; lia);
    bind_inv H; try discriminate.
  destruct (next_day _ _ Hwf Hv) as (Hwf' & Ho & _).
  destruct (Z.eq_dec n (ordinal dt)) as [->|Hne].
  - now rewrite day_matches_of.
  - apply (IH _ _ Hwf' H). lia.
Qed.

Lemma shift_date_loop_raises (fuel : nat) :
  forall dt e,
    wf dt -> fuel = Z.to_nat (MAXORDINAL - ordinal dt) ->
    shift_date_loop fuel dt dom month_ dow = Raise e ->
    forall n, ordinal dt <= n <= MAXORDINAL -> day_matches n dom month_ dow = false.
Proof.
  induction fuel as [|fuel IH]; intros dt e Hwf Hf H n Hn; cbn [shift_date_loop] in H;
    destruct (date_matches dt dom month_ dow) eqn:Hm; try discriminate.
  - assert (n = ordinal dt) by (unfold wf in Hwf; lia). subst n.
    now rewrite day_matches_of.
  - destruct (add dt (td_days 1)) as [dt'|e'] eqn:Eadd; cbn [bind] in H.
    + destruct (next_day _ _ Hwf Eadd) as (Hwf' & Ho & _).
      destruct (Z.eq_dec n (ordinal dt)) as [->|Hne].
      * now rewrite day_matches_of.
      * apply (IH _ _ Hwf' ltac:(lia) H). lia.
    + apply PyDateFacts.add_raises in Eadd. destruct Eadd as [_ Hov].
      unfold td_days, minutes_of, wf in *.
      exfalso. Z.to_euclidean_division_equations; lia.
Qed.

Lemma shift_date_no_match (dt : datetime) :
  wf dt ->
  (forall n, ordinal dt <= n <= MAXORDINAL -> day_matches n dom month_ dow = false) ->
  shift_date dt dom month_ dow = Raise OverflowError.
Proof.
  intros Hwf Hno. pose proof (shift_date_cases dom month_ dow dt Hwf) as Hc.
  destruct (shift_date dt dom month_ dow) as [r|e]; [|now subst].
  destruct Hc as (Hwr & Hle & _ & _ & Hm & Hwhere).
  rewrite <- day_matches_of, Hno in Hm; [discriminate|].
  unfold wf in Hwr. destruct Hwhere as [->|Hw]; lia.
Qed.

(** X11: [shift_date] returns a time on a day that passes the test: its
    argument when that day passes, and otherwise 00:00 of the first later
    day that does, with seconds kept. *)
Theorem shift_date_first_day (dt r : datetime) :
  wf dt ->
  shift_date dt dom month_ dow = Ok r ->
  date_matches r dom month_ dow = true
  /\ (date_matches dt dom month_ dow = true -> r = dt)
  /\ (date_matches dt dom month_ dow = false ->
      ordinal dt < ordinal r /\ hour r = 0 /\ minute r = 0
      /\ second r = second dt /\ microsecond r = microsecond dt)
  /\ (forall n, ordinal dt <= n < ordinal r -> day_matches n dom month_ dow = false).
Proof.
  intros Hwf H.
  pose proof (shift_date_cases dom month_ dow dt Hwf) as Hc. rewrite H in Hc.
  destruct Hc as (_ & _ & Hs & Hu & Hm & Hwhere).
  split; [exact Hm|]. split; [|split].
  - intros Hdt. rewrite (shift_date_unfold dom month_ dow dt Hwf), Hdt in H.
    now injection H.
  - intros Hdt. destruct Hwhere as [->|Hw]; [congruence | tauto].
  - exact (shift_date_loop_skips _ _ _ Hwf H).
Qed.

(** X12: [shift_date] always ends: the only error it raises is the
    [OverflowError] of [datetime], and it raises it exactly when no day from
    that of its argument to the last day of year 9999 passes the test. *)
Theorem shift_date_overflow (dt : datetime) :
  wf dt ->
  (shift_date dt dom month_ dow = Raise OverflowError <->
   forall n, ordinal dt <= n <= MAXORDINAL -> day_matches n dom month_ dow = false)
  /\ (forall e, shift_date dt dom month_ dow = Raise e -> e = OverflowError).
Proof.
  intros Hwf. split; [split|].
  - intros H. exact (shift_date_loop_raises _ _ _ Hwf eq_refl H).
  - now apply shift_date_no_match.
  - intros e H. pose proof (shift_date_cases dom month_ dow dt Hwf) as Hc.
    now rewrite H in Hc.
Qed.

End FirstDay.

Lemma shift_date_first_day_witness :
  date_matches (mkdt (ymd2ord 2023 1 2) 0 0 0 0) [2] [1] [0; 1; 2; 3; 4; 5; 6] = true.
Proof.
  refine (proj1 (shift_date_first_day [2] [1] [0; 1; 2; 3; 4; 5; 6]
                   (new_year_2023 9 0) _ _ _)).
  - vm_compute. intuition discriminate.
  - vm_compute. reflexivity.
Defined.

Lemma shift_date_overflow_witness :
  shift_date (mkdt (MAXORDINAL - 1) 0 0 0 0) [] [1] [0] = Raise OverflowError <->
  forall n, ordinal (mkdt (MAXORDINAL - 1) 0 0 0 0) <= n <= MAXORDINAL ->
            day_matches n [] [1] [0] = false.
Proof.
  refine (proj1 (shift_date_overflow [] [1] [0] (mkdt (MAXORDINAL - 1) 0 0 0 0) _)).
  vm_compute. intuition discriminate.
Defined.

(** ** Dates that never come *)

Lemma days_in_month_longest (y m : Z) : days_in_month y m <= longest m.
Proof.
  unfold days_in_month, longest.
  destruct (Z.eqb_spec m 2) as [->|]; cbn [andb b2z].
  - change (index DAYS_IN_MONTH 2) with 28. destruct (is_leap y); lia.
  - lia.
Qed.

Lemma no_such_day (dom month_ dow : list Z) (n : Z) :
  (forall d mo, In d dom -> In mo month_ -> 1 <= mo <= 12 -> longest mo < d) ->
  day_matches n dom month_ dow = false.
Proof.
  intros Hno. unfold day_matches, date_matches, day, month. cbn [ordinal].
  pose proof (CalendarFacts.ymd2ord_ord2ymd n) as Hc.
  destruct (ord2ymd n) as [[y m] d]. cbn [fst snd].
  destruct Hc as (_ & [Hm Hd] & _).
  destruct (PyList.py_in d dom) eqn:Ed; [|reflexivity].
  destruct (PyList.py_in m month_) eqn:Em; [|reflexivity].
  apply PyListFacts.py_in_iff in Ed, Em.
  pose proof (Hno _ _ Ed Em Hm). pose proof (days_in_month_longest y m). lia.
Qed.

(** X13: when every day of the day-of-month set is past the end of every
    month of the month set (the 31st of February), no date ever comes:
    [shift_date] and [next] do not loop, they walk to the end of year 9999
    and raise [OverflowError]. *)
Theorem unreachable_date_overflows
  (dt : datetime) (minutes hours dom month_ dow : list Z) :
  wf dt -> parsed_ok 0 59 minutes -> parsed_ok 0 23 hours ->
  (forall d mo, In d dom -> In mo month_ -> 1 <= mo <= 12 -> longest mo < d) ->
  shift_date dt dom month_ dow = Raise OverflowError
  /\ next (mkiter minutes hours dom month_ dow dt) = Raise OverflowError.
Proof.
  intros Hwf Hmi Hho Hno.
  assert (Hall : forall t, wf t -> shift_date t dom month_ dow = Raise OverflowError).
  { intros t Ht. apply shift_date_no_match; [assumption|].
    intros n _. now apply no_such_day. }
  split; [now apply Hall|].
  unfold next. cbn [current it_minute it_hour it_dom it_month it_dow].
  pose proof (shift_time_cases _ _ _ Hwf Hmi Hho) as Hc.
  destruct (shift_time dt minutes hours) as [dt1|e]; cbn [bind].
  - rewrite (Hall dt1) by tauto. reflexivity.
  - destruct Hc as [-> _]. reflexivity.
Qed.

Lemma unreachable_date_overflows_witness :
  shift_date (new_year_2023 0 0) [30; 31] [2] [0; 1; 2; 3; 4; 5; 6] = Raise OverflowError
  /\ next (mkiter [0] [0] [30; 31] [2] [0; 1; 2; 3; 4; 5; 6] (new_year_2023 0 0))
     = Raise OverflowError.
Proof.
  apply unreachable_date_overflows.
  - vm_compute. intuition discriminate.
  - split; [discriminate | repeat constructor; lia].
  - split; [discriminate | repeat constructor; lia].
  - intros d mo Hd Hmo _. simpl in Hd, Hmo.
    destruct Hmo as [<-|[]]. vm_compute. intuition (subst; reflexivity).
Defined.

(** ** What the iterator returns *)

Lemma next_inv (it it' : CronScheduleIterator) (t : datetime) :
  next it = Ok (t, it') ->
  exists dt1,
    shift_time (current it) (it_minute it) (it_hour it) = Ok dt1
    /\ shift_date dt1 (it_dom it) (it_month it) (it_dow it) = Ok t
    /\ add t (td_minutes 1) = Ok (current it')
    /\ it' = mkiter (it_minute it) (it_hour it) (it_dom it) (it_month it)
               (it_dow it) (current it').
Proof.
  unfold next. intros H. bind_inv H. bind_inv H.
  destruct (ltb v0 (current it)); [discriminate|].
  bind_inv H. injection H as <- <-. exists v. auto.
Qed.

Lemma date_matches_in (dt : datetime) (dom month_ dow : list Z) :
  date_matches dt dom month_ dow = true ->
  In (day dt) dom /\ In (month dt) month_ /\ In (weekday dt) dow.
Proof.
  unfold date_matches. intros H.
  apply andb_prop in H. destruct H as [H Hw].
  apply andb_prop in H. destruct H as [Hd Hm].
  now rewrite <- !PyListFacts.py_in_iff.
Qed.

(** X14: what holds of every value of [next]: its day of the month and its
    month are in their sets, its [weekday()] number (Monday 0) is in the
    day-of-week set, its time of day is in the minute and hour sets or is
    00:00, and the iterator keeps its sets and moves its cursor one minute
    past the value. *)
Theorem next_value (it it' : CronScheduleIterator) (t : datetime) :
  wf (current it) ->
  parsed_ok 0 59 (it_minute it) -> parsed_ok 0 23 (it_hour it) ->
  next it = Ok (t, it') ->
  In (day t) (it_dom it) /\ In (month t) (it_month it)
  /\ In (weekday t) (it_dow it)
  /\ ((In (minute t) (it_minute it) /\ In (hour t) (it_hour it))
      \/ (hour t = 0 /\ minute t = 0))
  /\ it' = mkiter (it_minute it) (it_hour it) (it_dom it) (it_month it)
             (it_dow it) (current it')
  /\ minutes_of (current it') = minutes_of t + 1.
Proof.
  intros Hwf Hmi Hho H.
  pose proof (next_cases it Hwf Hmi Hho) as Hc. rewrite H in Hc.
  destruct Hc as (Hwt & _ & _ & _ & _ & _ & Hm).
  destruct (date_matches_in _ _ _ _ Hm) as (Hd & Hmo & Hw).
  destruct (next_inv _ _ _ H) as (dt1 & _ & _ & Hadd & Hit).
  apply PyDateFacts.add_ok in Hadd; [|assumption].
  repeat split; try assumption.
  - exact (emitted_time_of_day _ _ _ Hwf Hmi Hho H).
  - unfold td_minutes in Hadd. tauto.
Qed.

Lemma next_value_witness :
  In (day (new_year_2023 0 15)) (PyList.range 1 32).
Proof.
  refine (proj1 (next_value
    (mkiter [0; 15; 30; 45] (PyList.range 0 24) (PyList.range 1 32)
       (PyList.range 1 13) (PyList.range 0 7) (new_year_2023 0 6))
    (mkiter [0; 15; 30; 45] (PyList.range 0 24) (PyList.range 1 32)
       (PyList.range 1 13) (PyList.range 0 7) (new_year_2023 0 16))
    (new_year_2023 0 15) _ _ _ _)).
  - vm_compute. intuition discriminate.
  - split; [discriminate | repeat constructor; lia].
  - split; [discriminate|]. apply Forall_forall. intros v Hv.
    apply PyListFacts.in_range in Hv. lia.
  - vm_compute. reflexivity.
Defined.

Lemma key_on_the_minute (dt : datetime) :
  on_the_minute dt -> key dt = minutes_of dt * 60000000.
Proof. intros [Hs Hu]. rewrite PyDateFacts.key_minutes, Hs, Hu. lia. Qed.

(** X15: [next] skips no occurrence: on sorted sets and a cursor on the
    minute, every time at or after the cursor whose minute and hour are in
    the sets and whose day passes the test of [shift_date] is at or after
    the value returned. *)
Theorem next_skips_nothing (it it' : CronScheduleIterator) (t : datetime) :
  wf (current it) -> on_the_minute (current it) ->
  parsed_ok 0 59 (it_minute it) -> parsed_ok 0 23 (it_hour it) ->
  StronglySorted Z.lt (it_minute it) -> StronglySorted Z.lt (it_hour it) ->
  next it = Ok (t, it') ->
  forall t', wf t' -> occurrence it t' ->
             leb (current it) t' = true -> leb t t' = true.
Proof.
  intros Hwf Hon Hmi Hho Hsm Hsh H t' Hwt' (Hmt & Hht & Hdt) Hle.
  destruct (next_inv _ _ _ H) as (dt1 & Hst & Hsd & _ & _).
  pose proof (shift_time_cases _ _ _ Hwf Hmi Hho) as Hc1. rewrite Hst in Hc1.
  destruct Hc1 as (Hwf1 & _ & Hs1 & Hu1 & _).
  pose proof (shift_date_cases (it_dom it) (it_month it) (it_dow it) _ Hwf1) as Hc2.
  rewrite Hsd in Hc2.
  destruct Hc2 as (Hwt & _ & Hs2 & Hu2 & _ & Hwhere).
  assert (Hont : on_the_minute t).
  { destruct Hon. unfold on_the_minute. split; congruence. }
  rewrite PyDateFacts.leb_key in Hle by assumption. apply Z.leb_le in Hle.
  rewrite (key_on_the_minute _ Hon), PyDateFacts.key_minutes in Hle.
  assert (Hge : minutes_of (current it) <= minutes_of t').
  { unfold wf in Hwt'. lia. }
  pose proof (shift_time_least _ _ _ _ _ Hwf Hmi Hho Hsm Hsh Hst Hwt' Hmt Hht Hge)
    as Hl1.
  assert (Hl2 : minutes_of t <= minutes_of t').
  { destruct Hwhere as [->|(Ho & Hh & Hm)]; [exact Hl1|].
    pose proof (shift_date_loop_skips (it_dom it) (it_month it) (it_dow it)
                  _ _ _ Hwf1 Hsd (ordinal t')) as Hskip.
    rewrite day_matches_of, Hdt in Hskip.
    assert (~ ordinal dt1 <= ordinal t' < ordinal t).
    { intros Hr. specialize (Hskip Hr). discriminate. }
    unfold minutes_of, wf in *. lia. }
  rewrite PyDateFacts.leb_key by assumption. apply Z.leb_le.
  rewrite (key_on_the_minute _ Hont), PyDateFacts.key_minutes.
  unfold wf in Hwt'. lia.
Qed.

Lemma next_skips_nothing_witness :
  leb (new_year_2023 0 15) (new_year_2023 0 45) = true.
Proof.
  refine (next_skips_nothing
    (mkiter [0; 15; 30; 45] (PyList.range 0 24) (PyList.range 1 32)
       (PyList.range 1 13) (PyList.range 0 7) (new_year_2023 0 6))
    (mkiter [0; 15; 30; 45] (PyList.range 0 24) (PyList.range 1 32)
       (PyList.range 1 13) (PyList.range 0 7) (new_year_2023 0 16))
    (new_year_2023 0 15) _ _ _ _ _ _ _ (new_year_2023 0 45) _ _ _).
  - vm_compute. intuition discriminate.
  - split; reflexivity.
  - split; [discriminate | repeat constructor; lia].
  - split; [discriminate|]. apply Forall_forall. intros v Hv.
    apply PyListFacts.in_range in Hv. lia.
  - repeat constructor; lia.
  - apply PyListOrder.range_strict.
  - vm_compute. reflexivity.
  - vm_compute. intuition discriminate.
  - unfold occurrence. cbn [it_minute it_hour it_dom it_month it_dow].
    split; [simpl; tauto|]. split; [apply PyListFacts.in_range; simpl; lia|].
    vm_compute. reflexivity.
  - vm_compute. reflexivity.
Defined.

Lemma add_keeps_seconds (dt r : datetime) (td : timedelta) :
  add dt td = Ok r -> second r = second dt /\ microsecond r = microsecond dt.
Proof.
  unfold add. destruct (_ && _); [|discriminate].
  intros H. injection H as <-. split; reflexivity.
Qed.

Lemma next_on_the_minute (it it' : CronScheduleIterator) (t : datetime) :
  wf (current it) -> on_the_minute (current it) ->
  within 0 59 (it_minute it) -> within 0 23 (it_hour it) ->
  next it = Ok (t, it') ->
  on_the_minute t /\ on_the_minute (current it').
Proof.
  intros Hwf [Hs Hu] Hmi Hho H.
  destruct (next_inv _ _ _ H) as (dt1 & Hst & Hsd & Hadd & _).
  destruct (shift_time_nonempty _ _ _ _ Hst) as [Hne1 Hne2].
  pose proof (shift_time_cases _ _ _ Hwf (conj Hne1 Hmi) (conj Hne2 Hho)) as Hc1.
  rewrite Hst in Hc1. destruct Hc1 as (Hwf1 & _ & Hs1 & Hu1 & _).
  pose proof (shift_date_cases (it_dom it) (it_month it) (it_dow it) _ Hwf1) as Hc2.
  rewrite Hsd in Hc2. destruct Hc2 as (_ & _ & Hs2 & Hu2 & _).
  destruct (add_keeps_seconds _ _ _ Hadd) as [Hs3 Hu3].
  unfold on_the_minute. repeat split; congruence.
Qed.

(** X16: an iterator built by the constructor works on whole minutes: its
    cursor and every value it returns have second 0 and microsecond 0,
    whatever the seconds of the start. *)
Theorem emitted_on_the_minute
  (minute_ hour_ dom month_ dow : list Z) (start_date : option datetime)
  (now : datetime) (it : CronScheduleIterator) (n : nat) (l : list datetime) :
  within 0 59 minute_ -> within 0 23 hour_ ->
  wf (start_or_now start_date now) ->
  init minute_ hour_ dom month_ dow start_date now = Ok it ->
  take n it = Ok l ->
  on_the_minute (current it) /\ Forall on_the_minute l.
Proof.
  intros Hmi Hho Hwf Hinit Htake.
  destruct (init_ok _ _ _ _ _ _ _ _ Hwf Hinit) as (_ & Hwfc & _ & Em & Eh).
  assert (Hon : on_the_minute (current it)).
  { unfold init in Hinit. bind_inv Hinit. injection Hinit as <-.
    apply add_keeps_seconds in Hv. exact Hv. }
  split; [exact Hon|].
  rewrite <- Em in Hmi. rewrite <- Eh in Hho. clear Hinit Em Eh Hwf.
  revert it l Hwfc Hon Hmi Hho Htake.
  induction n as [|n IH]; intros it l Hwfc Hon Hmi Hho Htake; cbn [take] in Htake.
  - injection Htake as <-. constructor.
  - bind_inv Htake. destruct v as [t it']. cbn [fst snd] in Htake. bind_inv Htake.
    injection Htake as <-.
    destruct (next_on_the_minute _ _ _ Hwfc Hon Hmi Hho Hv) as [Ht Hon'].
    destruct (next_ok _ _ _ Hwfc Hmi Hho Hv) as (_ & _ & _ & Hwf' & Em & Eh).
    rewrite <- Em in Hmi. rewrite <- Eh in Hho.
    constructor; [exact Ht|]. exact (IH _ _ Hwf' Hon' Hmi Hho Hv0).
Qed.

Lemma emitted_on_the_minute_witness :
  on_the_minute (new_year_2023 0 6)
  /\ Forall on_the_minute [new_year_2023 0 15; new_year_2023 0 30].
Proof.
  refine (emitted_on_the_minute [0; 15; 30; 45] (PyList.range 0 24)
            (PyList.range 1 32) (PyList.range 1 13) (PyList.range 0 7)
            (Some (mkdt (ymd2ord 2023 1 1) 0 5 42 123456)) (new_year_2023 0 5)
            (mkiter [0; 15; 30; 45] (PyList.range 0 24) (PyList.range 1 32)
               (PyList.range 1 13) (PyList.range 0 7) (new_year_2023 0 6))
            2 _ _ _ _ _ _).
  - repeat constructor; lia.
  - apply Forall_forall. intros v Hv. apply PyListFacts.in_range in Hv. lia.
  - vm_compute. intuition discriminate.
  - vm_compute. reflexivity.
  - vm_compute. reflexivity.
Defined.

(** X17: the constructor keeps the four other sets, replaces 7 by 0 in the
    day-of-week set, and puts the cursor on the minute after the start. *)
Theorem init_fields
  (minute_ hour_ dom month_ dow : list Z) (start_date : option datetime)
  (now : datetime) (it : CronScheduleIterator) :
  wf (start_or_now start_date now) ->
  init minute_ hour_ dom month_ dow start_date now = Ok it ->
  it_minute it = minute_ /\ it_hour it = hour_
  /\ it_dom it = dom /\ it_month it = month_
  /\ (forall d, In d (it_dow it) <-> (In d dow /\ d <> 7) \/ (d = 0 /\ In 7 dow))
  /\ on_the_minute (current it)
  /\ minutes_of (current it) = minutes_of (start_or_now start_date now) + 1.
Proof.
  intros Hwf H. unfold init in H. fold (start_or_now start_date now) in H.
  bind_inv H. injection H as <-. cbn [it_minute it_hour it_dom it_month it_dow current].
  repeat split; try reflexivity.
  - intros Hd. apply in_map_iff in Hd. destruct Hd as (x & Hx & Hin).
    destruct (Z.eqb_spec x 7); subst; [right | left]; auto.
  - intros [[Hd Hne]|[-> H7]]; apply in_map_iff.
    + exists d. destruct (Z.eqb_spec d 7); [contradiction | auto].
    + exists 7. auto.
  - apply add_keeps_seconds in Hv. apply Hv.
  - apply add_keeps_seconds in Hv. apply Hv.
  - apply PyDateFacts.add_ok in Hv.
    + destruct Hv as (_ & Hv & _). rewrite Hv. reflexivity.
    + unfold wf, replace_second0 in *. simpl. lia.
Qed.

Lemma init_fields_witness :
  on_the_minute (new_year_2023 8 1)
  /\ minutes_of (new_year_2023 8 1) = minutes_of (mkdt (ymd2ord 2023 1 1) 8 0 59 7) + 1.
Proof.
  refine (proj2 (proj2 (proj2 (proj2 (proj2
    (init_fields [0] [9] [1] [1] [1; 7] None (mkdt (ymd2ord 2023 1 1) 8 0 59 7)
       (mkiter [0] [9] [1] [1] [1; 0] (new_year_2023 8 1)) _ _)))))).
  - vm_compute. intuition discriminate.
  - vm_compute. reflexivity.
Defined.

Lemma unified_within (dow : list Z) :
  within 0 7 dow -> within 0 6 (map (fun d => if d =? 7 then 0 else d) dow).
Proof.
  unfold within. intros H. apply Forall_forall. intros x Hx.
  apply in_map_iff in Hx. destruct Hx as (d & <- & Hd).
  rewrite Forall_forall in H. specialize (H _ Hd).
  destruct (Z.eqb_spec d 7); lia.
Qed.

(** X18: the iterator that [parse_cron_expression] builds has its minute,
    hour, day-of-month and month sets strictly ascending and inside
    [0, 59], [0, 23], [1, 31] and [1, 12], its day-of-week set inside
    [0, 6], and its cursor on the minute. *)
Theorem parsed_iterator_fields (expr : string) (start_date : option datetime)
  (now : datetime) (it : CronScheduleIterator) :
  parse_cron_expression expr start_date now = Ok it ->
  (StronglySorted Z.lt (it_minute it) /\ within 0 59 (it_minute it))
  /\ (StronglySorted Z.lt (it_hour it) /\ within 0 23 (it_hour it))
  /\ (StronglySorted Z.lt (it_dom it) /\ within 1 31 (it_dom it))
  /\ (StronglySorted Z.lt (it_month it) /\ within 1 12 (it_month it))
  /\ within 0 6 (it_dow it)
  /\ on_the_minute (current it).
Proof.
  unfold parse_cron_expression. intros H.
  destruct (PyStr.split_ws (PyStr.strip expr))
    as [|f0 [|f1 [|f2 [|f3 [|f4 [|f5 fs]]]]]]; try discriminate.
  do 5 bind_inv H.
  apply parse_field_ok in Hv, Hv0, Hv1, Hv2, Hv3.
  destruct Hv as (r0 & _ & _ & Hs0 & Hw0). destruct Hv0 as (r1 & _ & _ & Hs1 & Hw1).
  destruct Hv1 as (r2 & _ & _ & Hs2 & Hw2). destruct Hv2 as (r3 & _ & _ & Hs3 & Hw3).
  destruct Hv3 as (r4 & _ & _ & _ & Hw4).
  unfold init in H. bind_inv H. injection H as <-.
  cbn [it_minute it_hour it_dom it_month it_dow current].
  repeat split; try assumption.
  - apply unified_within. destruct (PyList.py_in 7 v3); [|exact Hw4].
    unfold within in *. apply Forall_forall. intros y Hy.
    apply in_map_iff in Hy. destruct Hy as (d & <- & Hd).
    rewrite Forall_forall in Hw4. specialize (Hw4 _ Hd).
    destruct (Z.eqb_spec d 7); simpl; lia.
  - apply add_keeps_seconds in Hv. apply Hv.
  - apply add_keeps_seconds in Hv. apply Hv.
Qed.

Lemma parsed_iterator_fields_witness :
  within 0 6 [1; 2; 3; 4; 5; 6; 0].
Proof.
  refine (proj1 (proj2 (proj2 (proj2 (proj2
    (parsed_iterator_fields "0 9 * * MON-7" (Some (new_year_2023 0 0))
       (new_year_2023 0 0)
       (mkiter [0] [9] (PyList.range 1 32) (PyList.range 1 13) [1; 2; 3; 4; 5; 6; 0]
          (new_year_2023 0 1)) _)))))).
  vm_compute. reflexivity.
Defined.





(** ** Display *)

Lemma pad2_spec (n : Z) :
  0 <= n <= 99 ->
  String.length (pad2 n) = 2%nat /\ PyStr.decimal_value 0 (pad2 n) = n.
Proof.
  intros Hn.
  assert (H : forallb pad2_ok (PyList.range 0 100) = true) by (vm_compute; reflexivity).
  rewrite forallb_forall in H. specialize (H n (proj2 (PyListFacts.in_range 0 100 n) ltac:(lia))).
  unfold pad2_ok in H. apply andb_prop in H. destruct H as [H1 H2].
  apply Nat.eqb_eq in H1. apply Z.eqb_eq in H2. auto.
Qed.

Lemma two_chars_inv (s s' r r' : string) :
  String.length s = 2%nat -> String.length s' = 2%nat ->
  s ++ r = s' ++ r' -> s = s' /\ r = r'.
Proof.
  destruct s as [|a [|b [|c s]]]; try discriminate.
  destruct s' as [|a' [|b' [|c' s']]]; try discriminate.
  intros _ _ H. simpl in H. injection H as -> -> ->. auto.
Qed.

Lemma pad2_inv (n n' : Z) (r r' : string) :
  0 <= n <= 99 -> 0 <= n' <= 99 ->
  pad2 n ++ r = pad2 n' ++ r' -> n = n' /\ r = r'.
Proof.
  intros Hn Hn' H.
  destruct (pad2_spec n Hn) as [Hl Hv]. destruct (pad2_spec n' Hn') as [Hl' Hv'].
  destruct (two_chars_inv _ _ _ _ Hl Hl' H) as [E Er].
  split; [|exact Er]. rewrite <- Hv, <- Hv', E. reflexivity.
Qed.

Lemma digits_slash_inv (x : string) :
  forall x' r r',
    PyStr.forallb PyStr.is_decimal x = true ->
    PyStr.forallb PyStr.is_decimal x' = true ->
    x ++ String "/" r = x' ++ String "/" r' -> x = x' /\ r = r'.
Proof.
  induction x as [|c x IH]; intros [|c' x'] r r' Hx Hx' H; simpl in *.
  - injection H as ->. auto.
  - injection H as <- _. discriminate Hx'.
  - injection H as -> _. discriminate Hx.
  - apply andb_prop in Hx, Hx'. injection H as -> H.
    destruct (IH _ _ _ (proj2 Hx) (proj2 Hx') H) as [-> ->]. auto.
Qed.

Lemma wf_fields (dt : datetime) :
  wf dt ->
  1 <= year dt <= 9999 /\ 1 <= month dt <= 12 /\ 1 <= day dt <= 31
  /\ ymd2ord (year dt) (month dt) (day dt) = ordinal dt.
Proof.
  intros Hwf. unfold year, month, day.
  pose proof (CalendarFacts.ymd2ord_ord2ymd (ordinal dt)) as H.
  destruct (ord2ymd (ordinal dt)) as [[y m] d]. cbn [fst snd].
  destruct H as (E & [Hm Hd] & Hy).
  pose proof (days_in_month_longest y m) as Hl.
  assert (longest m <= 31).
  { unfold longest. CalendarFacts.month_cases m Hm; vm_compute; discriminate. }
  unfold wf in Hwf. repeat split; try tauto; try lia.
Qed.

Section DisplayFacts.
Variable year_text : Z -> string.
Hypothesis year_digits :
  forall y, 1 <= y <= 9999 -> PyStr.forallb PyStr.is_decimal (year_text y) = true.
Hypothesis year_inj :
  forall y y', 1 <= y <= 9999 -> 1 <= y' <= 9999 ->
               year_text y = year_text y' -> y = y'.

Lemma minute_text_inv (a b : datetime) (sa sb : string) :
  wf a -> wf b ->
  year_text (year a) ++ "/" ++ pad2 (month a) ++ "/" ++ pad2 (day a)
  ++ " " ++ pad2 (hour a) ++ ":" ++ pad2 (minute a) ++ sa
  = year_text (year b) ++ "/" ++ pad2 (month b) ++ "/" ++ pad2 (day b)
    ++ " " ++ pad2 (hour b) ++ ":" ++ pad2 (minute b) ++ sb ->
  ordinal a = ordinal b /\ hour a = hour b /\ minute a = minute b.
Proof.
  intros Ha Hb H.
  destruct (wf_fields a Ha) as (Hya & Hma & Hda & Ea).
  destruct (wf_fields b Hb) as (Hyb & Hmb & Hdb & Eb).
  unfold wf in Ha, Hb.
  apply digits_slash_inv in H; [|now apply year_digits..].
  destruct H as [Ey H]. apply year_inj in Ey; try assumption.
  apply pad2_inv in H; [|lia..]. destruct H as [Em H].
  simpl in H. injection H as H.
  apply pad2_inv in H; [|lia..]. destruct H as [Ed H].
  simpl in H. injection H as H.
  apply pad2_inv in H; [|lia..]. destruct H as [Eh H].
  simpl in H. injection H as H.
  apply pad2_inv in H; [|lia..]. destruct H as [Emi _].
  split; [|auto]. rewrite <- Ea, <- Eb, Ey, Em, Ed. reflexivity.
Qed.

(** X21: the two display texts tell the minute: two times with the same
    [format_utc] text, or the same [format_local] text, are in the same
    minute of the same day.  The text of a year is digits only and differs
    from year to year. *)
Theorem display_tells_the_minute (a b : datetime) :
  wf a -> wf b ->
  format_utc year_text a = format_utc year_text b
  \/ format_local year_text a = format_local year_text b ->
  minutes_of a = minutes_of b.
Proof.
  intros Ha Hb [H|H];
    apply (minute_text_inv _ _ _ _ Ha Hb) in H;
    destruct H as (Eo & Eh & Em); unfold minutes_of; now rewrite Eo, Eh, Em.
Qed.

End DisplayFacts.

Lemma display_tells_the_minute_witness :
  format_utc PyStr.str (new_year_2023 9 5) = "2023/01/01 09:05(UTC)"
  /\ format_local PyStr.str (new_year_2023 9 5) = "2023/01/01 09:05()"
  /\ minutes_of (mkdt (ymd2ord 2023 1 1) 9 5 30 0) = minutes_of (new_year_2023 9 5).
Proof.
  split; [reflexivity|]. split; [reflexivity|].
  apply (display_tells_the_minute PyStr.str).
  - intros y Hy. destruct (PyNumberFacts.str_nonneg y ltac:(lia)) as (d & _ & -> & _).
    apply PyNumberFacts.uint_text_decimal.
  - intros y y' Hy Hy' E.
    pose proof (PyNumberFacts.value_str y ltac:(lia)) as H1.
    pose proof (PyNumberFacts.value_str y' ltac:(lia)) as H2.
    rewrite E in H1. congruence.
  - vm_compute. intuition discriminate.
  - vm_compute. intuition discriminate.
  - left. reflexivity.
Defined.
